(** * veetility: the RivalIQ bulk-export poller and the mailbox helpers

    A shallow embedding of [veetility/rivaliq_functions.py] and of the pure
    parts of [veetility/vee_mails.py].

    Python is modelled with explicit state passing: a program of type [M A]
    takes the world it runs in and gives back either the value it returns or
    the exception it raises, together with the world it leaves behind.  The
    world records what the properties below talk about: the wall clock, the HTTP
    requests issued so far (each with the time it was sent), the arguments of
    every [time.sleep], and the files written.  Console output ([print]) is
    not recorded; only the evaluation of the printed expression is, since it
    can raise.  Whether the operating system carries out a file operation
    or refuses it is not for the program to decide: it is a parameter, the
    [FileSystem], like the answers of the remote service. *)

From Stdlib Require Import ZArith Lia Ascii.
From stdpp Require Import base option list strings gmap pretty sorting.

#[local] Set Warnings "-register-all".
Local Open Scope string_scope.
Local Open Scope list_scope.
Local Open Scope Z_scope.

(** ** Python values and outcomes *)

(** The exception classes that the modelled code raises or lets through.
    Every one of them derives from Python's [Exception]. *)
Inductive exn : Type :=
  | Exception (msg : string)
  | ValueError (msg : string)
  | TypeError (msg : string)
  | KeyError (key : string)
  | JSONDecodeError
  | ConnectionError
  | RecursionError
  | EmptyDataError (msg : string)
  | ParserError (msg : string)
  | OSError (name msg : string).    (* OSError or the subclass called [name] *)

(** The name of the class of an exception, as [type(e).__name__] gives it. *)
Definition exn_class (e : exn) : string :=
  match e with
  | Exception _ => "Exception"
  | ValueError _ => "ValueError"
  | TypeError _ => "TypeError"
  | KeyError _ => "KeyError"
  | JSONDecodeError => "JSONDecodeError"
  | ConnectionError => "ConnectionError"
  | RecursionError => "RecursionError"
  | EmptyDataError _ => "EmptyDataError"
  | ParserError _ => "ParserError"
  | OSError name _ => name
  end.

Inductive outcome (A : Type) : Type :=
  | Return (a : A)
  | Raise (e : exn).
Arguments Return {A} a.
Arguments Raise {A} e.

(** A decoded JSON document, as [response.json()] yields it (numbers are
    restricted to integers: the status endpoint reports integer codes). *)
Inductive json : Type :=
  | JNull
  | JBool (b : bool)
  | JInt (z : Z)
  | JStr (s : string)
  | JList (l : list json)
  | JDict (d : gmap string json).

(** [v == n] for an integer literal [n].  [True == 1] and [False == 0] in
    Python; a string, a list, a dict or [None] never equals an integer. *)
Definition py_eq_int (v : json) (n : Z) : bool :=
  match v with
  | JInt z => bool_decide (z = n)
  | JBool b => bool_decide ((if b then 1 else 0) = n)
  | _ => false
  end.

(** [data[key]] for a string key. *)
Definition json_getitem (data : json) (key : string) : outcome json :=
  match data with
  | JDict d =>
      match d !! key with
      | Some v => Return v
      | None => Raise (KeyError key)
      end
  | JList _ => Raise (TypeError "list indices must be integers or slices, not str")
  | JStr _ => Raise (TypeError "string indices must be integers, not 'str'")
  | JInt _ => Raise (TypeError "'int' object is not subscriptable")
  | JBool _ => Raise (TypeError "'bool' object is not subscriptable")
  | JNull => Raise (TypeError "'NoneType' object is not subscriptable")
  end.

(** ** HTTP through [requests] *)

Inductive http_method : Type := GET | POST | DELETE.

Record Request : Type := mkRequest {
  req_method : http_method;
  req_url : string;
  req_params : list (string * string);
  req_json : option json
}.

(** A [requests.Response]: the status code, the body text, and the body
    decoded as JSON ([None] when the body is not JSON, in which case
    [response.json()] raises). *)
Record Response : Type := mkResponse {
  status_code : Z;
  text : string;
  json_body : option json
}.

Definition Response_json (r : Response) : outcome json :=
  match json_body r with
  | Some j => Return j
  | None => Raise JSONDecodeError
  end.

(** [response[key]]: [requests.Response] defines no [__getitem__], so
    subscripting a response object raises whatever the key. *)
Definition Response_getitem {A} (r : Response) (key : string) : outcome A :=
  Raise (TypeError "'Response' object is not subscriptable").

(** ** The world *)

Record World : Type := mkWorld {
  now : Z;                          (* wall clock, in seconds; only time.sleep advances it *)
  sent : list (Z * Request);        (* requests issued, oldest first, with their time *)
  slept : list Z;                   (* arguments of time.sleep, oldest first *)
  dirs : gset string;               (* paths known to name a directory *)
  files : gmap string string        (* text written to each file, by path *)
}.

Definition M (A : Type) : Type := World → outcome A * World.

Definition ret {A} (a : A) : M A := λ w, (Return a, w).
Definition raise {A} (e : exn) : M A := λ w, (Raise e, w).
Definition bind {A B} (m : M A) (k : A → M B) : M B :=
  λ w, match m w with
       | (Return a, w') => k a w'
       | (Raise e, w') => (Raise e, w')
       end.
Definition lift {A} (o : outcome A) : M A := λ w, (o, w).

#[global] Instance M_ret : MRet M := @ret.
#[global] Instance M_bind : MBind M := λ A B k m, bind m k.

(** [try: m except Exception: h] — every modelled exception is caught. *)
Definition try_except {A} (m : M A) (h : exn → M A) : M A :=
  λ w, match m w with
       | (Return a, w') => (Return a, w')
       | (Raise e, w') => h e w'
       end.

Definition time_time : M Z := λ w, (Return (now w), w).

Definition time_sleep (s : Z) : M unit :=
  λ w, (Return tt,
        mkWorld (now w + s) (sent w) (slept w ++ [s]) (dirs w) (files w)).

Definition os_path_exists (p : string) : M bool :=
  λ w, (Return (bool_decide (p ∈ dirs w) || bool_decide (is_Some (files w !! p))), w).

(** What the operating system answers the file operations with: the
    exception with which it refuses to make a directory or to open a file
    for writing ([None] when it carries the operation out), and for a write
    the exception together with the text that reached the file before it.
    The exception is an OSError such as FileNotFoundError (a parent
    directory is missing, as when a part of the file name contains a
    slash), NotADirectoryError, PermissionError, or UnicodeEncodeError for a
    text that the encoding of the file cannot hold. *)
Record FileSystem : Type := mkFileSystem {
  fs_makedirs : string → World → option exn;
  fs_open : string → World → option exn;
  fs_write : string → string → World → option (exn * string)
}.

(** The prefixes of a path that end before a slash: the directories above
    it. *)
Fixpoint parent_dirs_from (above rest : string) : list string :=
  match rest with
  | "" => []
  | String c rest' =>
      (if Ascii.eqb c "/" && negb (String.eqb above "") then [above] else [])
      ++ parent_dirs_from (above +:+ String c "") rest'
  end.

Definition parent_dirs (p : string) : list string := parent_dirs_from "" p.

(** [os.makedirs(p)]: when it is not refused, [p] and every directory above
    it exist afterwards. *)
Definition os_makedirs (os : FileSystem) (p : string) : M unit :=
  λ w, match fs_makedirs os p w with
       | Some e => (Raise e, w)
       | None =>
           (Return tt,
            mkWorld (now w) (sent w) (slept w)
              ({[p]} ∪ list_to_set (parent_dirs p) ∪ dirs w) (files w))
       end.

(** [with open(path, 'w') as file: file.write(content)]: opening creates
    the file or empties it; a write that fails leaves in it what had been
    written. *)
Definition write_file (os : FileSystem) (path content : string) : M unit :=
  λ w, match fs_open os path w with
       | Some e => (Raise e, w)
       | None =>
           match fs_write os path content w with
           | Some (e, partial) =>
               (Raise e,
                mkWorld (now w) (sent w) (slept w) (dirs w)
                  (<[path := partial]> (files w)))
           | None =>
               (Return tt,
                mkWorld (now w) (sent w) (slept w) (dirs w)
                  (<[path := content]> (files w)))
           end
       end.

(** [round(time.time() - start_time, 2)] inside an f-string: the clock of
    the model ticks in whole seconds, and Python prints a whole float with
    one decimal. *)
Definition fmt_elapsed (t start_time : Z) : string :=
  pretty (t - start_time) +:+ ".0".

(** ** Text helpers *)

(** [s.split(sep)] for a one-character separator. *)
Fixpoint split_on (sep : ascii) (s : string) : list string :=
  match s with
  | "" => [""]
  | String c s' =>
      if Ascii.eqb c sep then "" :: split_on sep s'
      else match split_on sep s' with
           | x :: xs => String c x :: xs
           | [] => [String c ""]
           end
  end.

(** [sep.join(l)] for a one-character separator. *)
Fixpoint join (sep : ascii) (l : list string) : string :=
  match l with
  | [] => ""
  | [x] => x
  | x :: xs => x +:+ String sep (join sep xs)
  end.

(** [p in s] on strings. *)
Fixpoint is_substring (p s : string) : bool :=
  String.prefix p s ||
  match s with
  | "" => false
  | String _ s' => is_substring p s'
  end.

(** [l[start:]] where [start] may be [None]: Python reads a missing or
    [None] bound of a slice as the beginning of the list. *)
Definition slice_from {A} (start : option nat) (l : list A) : list A :=
  match start with
  | None => l
  | Some i => drop i l
  end.

Definition newline : ascii := Ascii.ascii_of_nat 10.
Definition comma : ascii := ",".

(** ** [pandas.read_csv] *)

(** A cell of a data frame: an integer (dtype int64) or a string (dtype
    object). *)
Inductive cell : Type :=
  | CInt (z : Z)
  | CStr (s : string).

Record DataFrame : Type := mkDataFrame {
  columns : list string;
  rows : list (list cell)
}.

(** [df.astype(str)] *)
Definition astype_str (df : DataFrame) : DataFrame :=
  mkDataFrame (columns df)
    (map (map (λ c, match c with CInt z => CStr (pretty z) | CStr s => CStr s end))
         (rows df)).

Definition is_digit (c : ascii) : bool :=
  let n := Ascii.nat_of_ascii c in (48 <=? n)%nat && (n <=? 57)%nat.

Definition is_letter (c : ascii) : bool :=
  let n := Ascii.nat_of_ascii c in
  ((65 <=? n)%nat && (n <=? 90)%nat) || ((97 <=? n)%nat && (n <=? 122)%nat).

Definition string_forall (P : ascii → bool) (s : string) : bool :=
  forallb P (String.list_ascii_of_string s).

(** A column name made of letters, digits and underscores. *)
Definition plain_name (s : string) : bool :=
  negb (String.eqb s "") &&
  string_forall (λ c, is_letter c || is_digit c || Ascii.eqb c "_") s.

Fixpoint digits_value (acc : Z) (s : string) : Z :=
  match s with
  | "" => acc
  | String c s' => digits_value (10 * acc + Z.of_nat (Ascii.nat_of_ascii c - 48)) s'
  end.

(** A field that pandas reads as an int64: one to eighteen decimal digits
    with no sign and no leading zero. *)
Definition int_literal (s : string) : option Z :=
  if negb (String.eqb s "") && string_forall is_digit s
     && (String.length s <=? 18)%nat
     && (String.eqb s "0" || negb (String.prefix "0" s))
  then Some (digits_value 0 s) else None.

Definition all_digit_fields (fields : list string) : bool :=
  forallb (λ f, bool_decide (is_Some (int_literal f))) fields.

Definition parser_error (expected line saw : nat) : exn :=
  ParserError ("Error tokenizing data. C error: Expected " +:+ pretty expected
               +:+ " fields in line " +:+ pretty line
               +:+ ", saw " +:+ pretty saw +:+ String newline "").

(** The data lines of the text, given the number [n] of header fields;
    [i] is the index of the line among the data lines.  A line with exactly
    [n] integer fields is a row; a line after the first data line with more
    than [n] fields is the tokenizer's error; anything else is left to
    [read_csv_rest] (result [None]). *)
Fixpoint read_rows (n : nat) (i : nat) (data : list string)
    : option (outcome (list (list cell))) :=
  match data with
  | [] => Some (Return [])
  | line :: data' =>
      let fields := split_on comma line in
      if bool_decide (length fields = n) && all_digit_fields fields then
        match read_rows n (S i) data' with
        | Some (Return rs) =>
            Some (Return (omap (λ f, CInt <$> int_literal f) fields :: rs))
        | other => other
        end
      else if bool_decide (n < length fields)%nat && bool_decide (0 < i)%nat then
        Some (Raise (parser_error n (i + 2) (length fields)))
      else None
  end.

(** [pd.read_csv(io.StringIO(text))] with every option at its default, on
    the texts whose behaviour is pinned down here: the empty text, and
    comma-separated texts made only of letters, digits, underscores, commas
    and line feeds, with no empty line, distinct non-empty column names on
    the first line, and integer data.  On any other text the result is
    [None]. *)
Definition read_csv_plain (text : string) : option (outcome DataFrame) :=
  if String.eqb text "" then
    Some (Raise (EmptyDataError "No columns to parse from file"))
  else if negb (string_forall
                  (λ c, is_letter c || is_digit c || Ascii.eqb c "_"
                        || Ascii.eqb c comma || Ascii.eqb c newline) text) then
    None
  else
    match split_on newline text with
    | header :: data =>
        let names := split_on comma header in
        if forallb plain_name names && bool_decide (NoDup names)
           && forallb (λ l, negb (String.eqb l "")) data then
          match read_rows (length names) 0 data with
          | Some (Return rs) => Some (Return (mkDataFrame names rs))
          | Some (Raise e) => Some (Raise e)
          | None => None
          end
        else None
    | [] => None
    end.

Section Pandas.

(** What pandas does on the texts that [read_csv_plain] leaves open. *)
Variable read_csv_rest : string → outcome DataFrame.

Definition read_csv (text : string) : outcome DataFrame :=
  match read_csv_plain text with
  | Some r => r
  | None => read_csv_rest text
  end.

End Pandas.

(** ** [rivaliq_functions.py]: the bulk-export poller *)

Section rivaliq_functions.

(** The remote service: its answer to the request issued when [n] requests
    have been issued before.  A transport failure is an exception raised by
    [requests] itself. *)
Variable remote : nat → Request → outcome Response.

(** pandas outside the texts that [read_csv_plain] covers. *)
Variable read_csv_rest : string → outcome DataFrame.

(** The operating system's answers to the file operations. *)
Variable os : FileSystem.

Definition requests_send (req : Request) : M Response :=
  λ w, (remote (length (sent w)) req,
        mkWorld (now w) (sent w ++ [(now w, req)]) (slept w) (dirs w) (files w)).

Definition requests_get (url : string) (params : list (string * string)) : M Response :=
  requests_send (mkRequest GET url params None).

Definition requests_post (url : string) (body : json) : M Response :=
  requests_send (mkRequest POST url [] (Some body)).

Definition status_url (downloadToken : string) : string :=
  "https://api.rivaliq.com/v3/bulkDownload/" +:+ downloadToken +:+ "/status".

Definition status_request (downloadToken apiKey : string) : Request :=
  mkRequest GET (status_url downloadToken) [("apiKey", apiKey)] None.

Definition get_bulkDownload_status (downloadToken apiKey : string) : M Response :=
  response ← requests_get (status_url downloadToken) [("apiKey", apiKey)];
  if bool_decide (status_code response = 200) then
    mret response
  else
    raise (Exception ("Error: " +:+ pretty (status_code response))).

(** Lines 218-220, the [else] of the outer [if] of
    [check_bulkDownload_status]. *)
Definition non_200_branch (response : Response) : M json :=
  _ ← lift (Response_getitem (A:=string) response "status_code");
  _ ← lift (Response_getitem (A:=string) response "text");
  code ← lift (Response_getitem (A:=string) response "status_code");
  raise (Exception ("Error: " +:+ code)).

(** [check_bulkDownload_status], with the [else] of its outer [if] as a
    parameter.  [depth] is the number of nested calls of the function that
    the interpreter still allows: the function calls itself once per poll,
    and Python raises [RecursionError] when its recursion limit is
    reached. *)
Fixpoint check_bulkDownload_status_with (on_non_200 : Response → M json)
    (depth : nat) (downloadToken apiKey : string) (start_time : Z) : M json :=
  match depth with
  | O => raise RecursionError
  | S depth' =>
      response ← get_bulkDownload_status downloadToken apiKey;
      if bool_decide (status_code response = 200) then
        data ← lift (Response_json response);
        status ← lift (json_getitem data "status");
        if py_eq_int status 2 then
          _ ← time_time;
          lift (json_getitem data "href")
        else if py_eq_int status 3 then
          _ ← lift (Response_getitem (A:=string) response "status_code");
          _ ← lift (Response_getitem (A:=string) response "text");
          t ← time_time;
          raise (Exception ("Download Failed! Elapsed time: "
                            +:+ fmt_elapsed t start_time +:+ " seconds"))
        else
          _ ← time_time;
          time_sleep 60;;
          check_bulkDownload_status_with on_non_200 depth'
            downloadToken apiKey start_time
      else
        on_non_200 response
  end.

Definition check_bulkDownload_status :
    nat → string → string → Z → M json :=
  check_bulkDownload_status_with non_200_branch.

Definition bulk_directory (landscapeId : string) : string :=
  "bulkSocialPosts/landscape_" +:+ landscapeId.

Definition bulk_filename
    (landscapeId companyId mainPeriodStart mainPeriodEnd channel : string) : string :=
  "bulkSocialPosts/landscape_" +:+ landscapeId
  +:+ "/bulkSocialPosts_data_landId_" +:+ landscapeId
  +:+ "_compIds_" +:+ companyId
  +:+ "_start_" +:+ mainPeriodStart
  +:+ "_end_" +:+ mainPeriodEnd
  +:+ "_channel_" +:+ channel +:+ ".csv".

(** Lines 249-256, the body of [if save_csv:]; [body] is [r.text].  Nothing
    here is inside the [try]: an exception of a file operation leaves the
    function. *)
Definition save_body
    (landscapeId companyId mainPeriodStart mainPeriodEnd channel body : string)
    : M unit :=
  let directory := bulk_directory landscapeId in
  ex ← os_path_exists directory;
  (if negb ex then os_makedirs os directory else mret tt);;
  write_file os
    (bulk_filename landscapeId companyId mainPeriodStart mainPeriodEnd channel)
    body.

(** The result is [Some df] for a data frame and [None] for Python's
    [None]. *)
Definition download_bulkSocialPosts_csv
    (link landscapeId companyId mainPeriodStart mainPeriodEnd channel : string)
    (save_csv : bool) : M (option DataFrame) :=
  r ← requests_get link [];
  if bool_decide (status_code r = 200) then
    let companyId := if String.eqb companyId "" then "all" else companyId in
    (if save_csv then
       save_body landscapeId companyId mainPeriodStart mainPeriodEnd channel (text r)
     else mret tt);;
    try_except
      (df ← lift (read_csv read_csv_rest (text r)); mret (Some df))
      (λ _, mret None)
  else
    mret None.

(** An element of the [companyIds] argument. *)
Inductive pyval : Type :=
  | VNone
  | VBool (b : bool)
  | VInt (z : Z)
  | VStr (s : string).

(** [isinstance(v, int)]: [bool] is a subclass of [int]. *)
Definition isinstance_int (v : pyval) : bool :=
  match v with
  | VInt _ | VBool _ => true
  | VNone | VStr _ => false
  end.

Definition to_json (v : pyval) : json :=
  match v with
  | VNone => JNull
  | VBool b => JBool b
  | VInt z => JInt z
  | VStr s => JStr s
  end.

Definition follow_url (landscapeId apiKey : string) : string :=
  "https://api.rivaliq.com/v3/landscapes/" +:+ landscapeId
  +:+ "/companies/byId?apiKey=" +:+ apiKey.

Definition follow_request (apiKey landscapeId : string) (companyIds : list pyval)
    : Request :=
  mkRequest POST (follow_url landscapeId apiKey) []
    (Some (JDict {["companyIds" := JList (to_json <$> companyIds)]})).

Definition post_followCompanies (apiKey landscapeId : string)
    (companyIds : list pyval) (verbose : bool) : M unit :=
  if bool_decide (10 < length companyIds)%nat then
    raise (Exception "At most 10 companies can be followed at a time.")
  else if negb (forallb isinstance_int companyIds) then
    raise (Exception "All company IDs must be integers.")
  else
    response ← requests_post (follow_url landscapeId apiKey)
                 (JDict {["companyIds" := JList (to_json <$> companyIds)]});
    if bool_decide (status_code response = 200) then
      if verbose then _ ← lift (Response_json response); mret tt
      else mret tt
    else
      raise (Exception ("Error: " +:+ pretty (status_code response))).

End rivaliq_functions.

(** ** [vee_mails.py]: the pure helpers of [VEEmail] *)

(** The regular expressions that [extract_url_from_body] builds: a sequence
    of literal characters, optional characters and one-or-more repetitions
    of a character class. *)
Inductive atom : Type :=
  | Lit (c : ascii)
  | Opt (c : ascii)
  | Plus (class : ascii → bool).

(** One or more characters of a class, as many as possible, followed by
    whatever [rest] matches; on failure of [rest] the repetition gives back
    one character at a time. *)
Fixpoint match_plus (class : ascii → bool)
    (rest : string → option (string * string)) (s : string)
    : option (string * string) :=
  match s with
  | String c s' =>
      if class c then
        match match_plus class rest s' with
        | Some (m, r) => Some (String c m, r)
        | None =>
            match rest s' with
            | Some (m, r) => Some (String c m, r)
            | None => None
            end
        end
      else None
  | "" => None
  end.

(** Match the pattern at the beginning of [s], greedily and with
    backtracking: the matched text and what follows it. *)
Fixpoint match_here (p : list atom) (s : string) {struct p}
    : option (string * string) :=
  match p with
  | [] => Some ("", s)
  | Lit c :: p' =>
      match s with
      | String c' s' =>
          if Ascii.eqb c c' then
            match match_here p' s' with
            | Some (m, r) => Some (String c' m, r)
            | None => None
            end
          else None
      | "" => None
      end
  | Opt c :: p' =>
      match s with
      | String c' s' =>
          if Ascii.eqb c c' then
            match match_here p' s' with
            | Some (m, r) => Some (String c' m, r)
            | None => match_here p' s
            end
          else match_here p' s
      | "" => match_here p' s
      end
  | Plus class :: p' => match_plus class (match_here p') s
  end.

(** [re.findall(p, s)] for a pattern without groups that matches no empty
    text: the matches found scanning from the left, each search resuming
    where the previous match ended.  [skip] counts the characters of [s]
    that still belong to the previous match. *)
Fixpoint findall_from (p : list atom) (skip : nat) (s : string) : list string :=
  match s with
  | "" => []
  | String _ s' =>
      match skip with
      | S k => findall_from p k s'
      | O =>
          match match_here p s with
          | Some (m, _) => m :: findall_from p (String.length m - 1) s'
          | None => findall_from p 0 s'
          end
      end
  end.

Definition findall (p : list atom) (s : string) : list string :=
  findall_from p 0 s.

(** [re.escape(s)] followed by compilation: a pattern that matches [s]
    literally. *)
Definition re_escape (s : string) : list atom :=
  Lit <$> String.list_ascii_of_string s.

Section vee_mails.

(** The whitespace characters: those that the class written backslash-s
    matches. *)
Variable is_space : ascii → bool.

(** pandas outside the texts that [read_csv_plain] covers. *)
Variable read_csv_rest : string → outcome DataFrame.

(** The class of the characters that are neither whitespace nor an angle
    bracket, a double or single quote, or a parenthesis. *)
Definition url_char (c : ascii) : bool :=
  negb (is_space c
        || Ascii.eqb c "<" || Ascii.eqb c ">"
        || Ascii.eqb c (Ascii.ascii_of_nat 34) || Ascii.eqb c "'"
        || Ascii.eqb c "(" || Ascii.eqb c ")").

Definition url_pattern (base_url : option string) : list atom :=
  match base_url with
  | None => re_escape "http" ++ [Opt "s"] ++ re_escape "://" ++ [Plus url_char]
  | Some b => re_escape b ++ [Plus url_char]
  end.

Definition extract_url_from_body (body : string) (base_url : option string)
    : outcome string :=
  let urls := findall (url_pattern base_url) body in
  match urls with
  | [u] => Return u
  | [] => Raise (ValueError "No URL found in the email content.")
  | _ :: _ :: _ => Raise (ValueError "More than one URL found in the email content.")
  end.

Definition default_key_columns : list string :=
  ["Day"; "Media Owner"; "Venue Type"; "Advertiser"].

(** The loop of [parse_csv] over [enumerate(lines)]: the index of the first
    line that contains every key column, [None] when the loop ends without
    a [break]. *)
Fixpoint find_header_row (key_columns : list string) (i : nat) (lines : list string)
    : option nat :=
  match lines with
  | [] => None
  | line :: lines' =>
      if forallb (λ key_column, is_substring key_column line) key_columns
      then Some i
      else find_header_row key_columns (S i) lines'
  end.

Definition parse_csv (csv_content : string) (key_columns : option (list string))
    : outcome DataFrame :=
  let key_columns := default default_key_columns key_columns in
  let lines := split_on newline csv_content in
  let header_row_index := find_header_row key_columns 0 lines in
  let csv_content_from_header := join newline (slice_from header_row_index lines) in
  read_csv read_csv_rest csv_content_from_header.

End vee_mails.

(** ** [rivaliq_functions.py]: the export pipeline and the warehouse *)

Section rivaliq_pipeline.

Variable remote : nat → Request → outcome Response.
Variable read_csv_rest : string → outcome DataFrame.

(** [str(v)] of a list or a dict. *)
Variable str_container : json → string.

(** The operating system's answers to the file operations. *)
Variable os : FileSystem.

(** [str(v)] of a decoded JSON value, as an f-string and [requests] (which
    applies [str] to the URL it is given) compute it. *)
Definition py_str (v : json) : string :=
  match v with
  | JStr s => s
  | JInt z => pretty z
  | JBool true => "True"
  | JBool false => "False"
  | JNull => "None"
  | JList _ | JDict _ => str_container v
  end.

Definition bulk_url (landscapeId : string) : string :=
  "https://api.rivaliq.com/v3/landscapes/" +:+ landscapeId +:+ "/bulkSocialPosts".

Definition bulk_request
    (landscapeId apiKey companyId mainPeriodStart mainPeriodEnd channel format : string)
    : Request :=
  mkRequest GET (bulk_url landscapeId)
    [("apiKey", apiKey); ("mainPeriodStart", mainPeriodStart);
     ("mainPeriodEnd", mainPeriodEnd); ("channel", channel);
     ("format", format); ("companyId", companyId)] None.

(** [depth] is the room that the interpreter leaves for the nested calls
    of [check_bulkDownload_status]. *)
Definition get_bulkSocialPosts (depth : nat)
    (landscapeId apiKey companyId mainPeriodStart mainPeriodEnd channel format : string)
    (save_csv : bool) : M (option DataFrame) :=
  response ← requests_get remote (bulk_url landscapeId)
    [("apiKey", apiKey); ("mainPeriodStart", mainPeriodStart);
     ("mainPeriodEnd", mainPeriodEnd); ("channel", channel);
     ("format", format);
     ("companyId", if negb (String.eqb companyId "") then companyId else "")];
  if bool_decide (status_code response = 202) then
    data ← lift (Response_json response);
    token ← lift (json_getitem data "token");
    start_time ← time_time;
    link ← check_bulkDownload_status remote depth (py_str token) apiKey start_time;
    download_bulkSocialPosts_csv remote read_csv_rest os (py_str link) landscapeId
      companyId mainPeriodStart mainPeriodEnd channel save_csv
  else
    raise (Exception ("Error: " +:+ pretty (status_code response))).

End rivaliq_pipeline.

Definition table_names : gmap string string :=
  list_to_map
    [("facebook", "STG_RIVALIQ_FACEBOOK"); ("twitter", "STG_RIVALIQ_TWITTER");
     ("instagram", "STG_RIVALIQ_INSTAGRAM"); ("youtube", "STG_RIVALIQ_YOUTUBE");
     ("tiktok", "STG_RIVALIQ_TIKTOK"); ("all", "STG_RIVALIQ_ALL_SOCIAL_POSTS")].

(** One call of [write_df_to_snowflake]. *)
Record snowflake_write : Type := mkWrite {
  sw_df : DataFrame;
  sw_database : string;
  sw_schema : string;
  sw_table_name : string;
  sw_auto_create_table : bool
}.

(** Modelled from the spec: [veetility.snowflake], whose source is not
    given, is the warehouse sink that accepts a table and a named
    destination; the session is the list of the writes it was asked for,
    oldest first.  The body is that of [send_to_snowflake]: the argument
    [table_names[channel]] is evaluated before the write is issued. *)
Definition send_to_snowflake (df : DataFrame) (channel : string)
    (session : list snowflake_write) : outcome unit * list snowflake_write :=
  let df := astype_str df in
  match table_names !! channel with
  | Some table_name =>
      (Return tt,
       session ++ [mkWrite df "VM_CORE_DATA_STAGING" "VM_RIVALIQ_STAGING"
                     table_name true])
  | None => (Raise (KeyError channel), session)
  end.

(** ** [vee_mails.py]: the search for messages *)

Definition dquote : string := String (Ascii.ascii_of_nat 34) "".

(** [s.replace(")(", ") (")] *)
Fixpoint separate_criteria (s : string) : string :=
  match s with
  | "" => ""
  | String c s' =>
      match s' with
      | String c' s'' =>
          if Ascii.eqb c ")" && Ascii.eqb c' "(" then
            String ")" (String " " (String "(" (separate_criteria s'')))
          else String c (separate_criteria s')
      | "" => String c ""
      end
  end.

(** The whitespace of [bytes.split()]. *)
Definition is_bytes_space (c : ascii) : bool :=
  let n := Ascii.nat_of_ascii c in (n =? 32)%nat || ((9 <=? n)%nat && (n <=? 13)%nat).

(** [b.split()]: the maximal runs of characters that are not whitespace. *)
Fixpoint split_ws (s : string) : list string :=
  match s with
  | "" => []
  | String c s' =>
      if is_bytes_space c then split_ws s'
      else match s' with
           | "" => [String c ""]
           | String c' _ =>
               if is_bytes_space c' then String c "" :: split_ws s'
               else match split_ws s' with
                    | t :: ts => String c t :: ts
                    | [] => [String c ""]
                    end
           end
  end.

(** Where [sorted(..., reverse=True)] puts an element among those that
    follow it in the input: before the first one whose key is not greater,
    so that elements with equal keys keep their order. *)
Fixpoint insert_desc (x : Z * string) (l : list (Z * string)) : list (Z * string) :=
  match l with
  | [] => [x]
  | y :: l' => if (y.1 <=? x.1)%Z then x :: y :: l' else y :: insert_desc x l'
  end.

Definition sort_desc (l : list (Z * string)) : list (Z * string) :=
  foldr insert_desc [] l.

(** The object: its [search_string] attribute and the criteria of the
    searches that it sent to the server, oldest first. *)
Record VEEmail : Type := mkVEEmail {
  search_string : string;
  searches : list string
}.

Section search.

(** [self.con.search(None, criteria)]: the status and the first element of
    the data that the server answers with. *)
Variable imap_search : string → outcome (string * string).

(** [today.strftime("%d-%b-%Y")] *)
Variable today_str : string.

(** [int(token)], [None] when it raises ValueError; and [repr(token)]. *)
Variable py_int : string → option Z.
Variable bytes_repr : string → string.

(** The keys of [sorted(..., key=int)], computed for every element before
    anything is moved. *)
Fixpoint with_int_keys (tokens : list string) : outcome (list (Z * string)) :=
  match tokens with
  | [] => Return []
  | t :: ts =>
      match py_int t with
      | None =>
          Raise (ValueError ("invalid literal for int() with base 10: "
                             +:+ bytes_repr t))
      | Some k =>
          match with_int_keys ts with
          | Return l => Return ((k, t) :: l)
          | Raise e => Raise e
          end
      end
  end.

(** The search string of [search_emails], before and after the spaces are
    put between the criteria. *)
Definition raw_criteria (from_email : option string)
    (substrings_in_subject : option (list string))
    (exclude_subject_substring send_date : option string) (sent_today : bool)
    : string :=
  let search_string := "" in
  let search_string :=
    match from_email with
    | Some f => search_string +:+ "(FROM " +:+ dquote +:+ f +:+ dquote +:+ ")"
    | None => search_string
    end in
  let search_string :=
    match substrings_in_subject with
    | Some l =>
        foldl (λ acc substring,
                 acc +:+ "(SUBJECT " +:+ dquote +:+ substring +:+ dquote +:+ ")")
              search_string l
    | None => search_string
    end in
  let search_string :=
    match exclude_subject_substring with
    | Some x => search_string +:+ "(NOT SUBJECT " +:+ dquote +:+ x +:+ dquote +:+ ")"
    | None => search_string
    end in
  let search_string :=
    match send_date with
    | Some d => search_string +:+ "(SENTON " +:+ dquote +:+ d +:+ dquote +:+ ")"
    | None => search_string
    end in
  if sent_today then
    search_string +:+ "(SENTON " +:+ dquote +:+ today_str +:+ dquote +:+ ")"
  else search_string.

Definition search_emails (self : VEEmail) (from_email : option string)
    (substrings_in_subject : option (list string))
    (exclude_subject_substring send_date : option string) (sent_today : bool)
    : outcome (list string) * VEEmail :=
  if bool_decide (is_Some send_date) && sent_today then
    (Raise (ValueError
      "Cannot use both 'send_date' and 'sent_today' parameters simultaneously."),
     self)
  else
    let criteria :=
      separate_criteria
        (raw_criteria from_email substrings_in_subject
           exclude_subject_substring send_date sent_today) in
    let self := mkVEEmail criteria (searches self ++ [criteria]) in
    match imap_search criteria with
    | Raise e => (Raise e, self)
    | Return (status, email_ids_0) =>
        if negb (String.eqb status "OK") then (Return [], self)
        else
          match with_int_keys (split_ws email_ids_0) with
          | Return keyed => (Return ((sort_desc keyed).*2), self)
          | Raise e => (Raise e, self)
          end
    end.

End search.

(** ** What the remote reports *)

(** The value under ["status"] in a poll response. *)
Definition reported_status (r : Response) : option json :=
  match json_body r with
  | Some (JDict d) => d !! "status"
  | _ => None
  end.

(** A successful poll response that reports neither 2 nor 3. *)
Definition in_progress (r : Response) : bool :=
  bool_decide (status_code r = 200) &&
  match reported_status r with
  | Some s => negb (py_eq_int s 2) && negb (py_eq_int s 3)
  | None => false
  end.

(** A successful poll response that reports 3. *)
Definition reports_failed (r : Response) : bool :=
  bool_decide (status_code r = 200) &&
  match reported_status r with
  | Some s => py_eq_int s 3
  | None => false
  end.

(** The retrieval address of a successful poll response that reports 2. *)
Definition ready_link (r : Response) : option json :=
  if bool_decide (status_code r = 200) then
    match json_body r with
    | Some (JDict d) =>
        match d !! "status" with
        | Some s => if py_eq_int s 2 then d !! "href" else None
        | None => None
        end
    | _ => None
    end
  else None.

(** The world after one status query. *)
Definition queried (downloadToken apiKey : string) (w : World) : World :=
  mkWorld (now w)
    (sent w ++ [(now w, status_request downloadToken apiKey)])
    (slept w) (dirs w) (files w).

(** The world after [n] rounds of one status query and one sleep of 60
    seconds. *)
Definition polled (downloadToken apiKey : string) (n : nat) (w : World) : World :=
  mkWorld (now w + 60 * Z.of_nat n)
    (sent w ++ ((λ i : nat, (now w + 60 * Z.of_nat i,
                             status_request downloadToken apiKey)) <$> seq 0 n))
    (slept w ++ replicate n 60) (dirs w) (files w).

(** What a match of the URL pattern begins with: the base URL when one is
    given, an http or https scheme otherwise. *)
Definition begins_as_asked (base_url : option string) (u : string) : bool :=
  match base_url with
  | Some b => String.prefix b u
  | None => String.prefix "http://" u || String.prefix "https://" u
  end.

(** A line of text: a string without a line feed. *)
Definition no_newline (line : string) : bool :=
  string_forall (λ c, negb (Ascii.eqb c newline)) line.

(** A cell that holds a string. *)
Definition is_str_cell (c : cell) : bool :=
  match c with
  | CStr _ => true
  | CInt _ => false
  end.

(** The world after the retrieval request for [link]. *)
Definition fetched (link : string) (w : World) : World :=
  mkWorld (now w) (sent w ++ [(now w, mkRequest GET link [] None)])
    (slept w) (dirs w) (files w).

(** How the saving of the body ends in a retrieval that got the answer
    [r] with status 200 in the world [w]: normally when no saving is asked
    for, as [save_body] does otherwise. *)
Definition save_outcome (os : FileSystem) (save_csv : bool)
    (link landscapeId companyId mainPeriodStart mainPeriodEnd channel : string)
    (r : Response) (w : World) : outcome unit :=
  if save_csv then
    (save_body os landscapeId (if String.eqb companyId "" then "all" else companyId)
       mainPeriodStart mainPeriodEnd channel (text r) (fetched link w)).1
  else Return tt.

(** A run honours a wait bound when it issues no request later than
    [maxWaitSeconds] after [start_time] and ends by raising the timeout
    error. *)
Definition stops_at_deadline (maxWaitSeconds start_time : Z)
    (run : outcome json * World) : Prop :=
  (∀ t req, (t, req) ∈ sent run.2 → (t - start_time ≤ maxWaitSeconds)%Z) ∧
  ∃ e, run.1 = Raise e ∧ exn_class e = "PollTimeoutError".

(** Between the worlds [w] and [w'] the program slept [n] times, each time
    for the interval that the caller configured. *)
Definition waits_configured_interval (pollIntervalSeconds : Z) (n : nat)
    (w w' : World) : Prop :=
  slept w' = slept w ++ replicate n pollIntervalSeconds.

(** An exception that reports the failure of the download. *)
Definition reports_download_failure (e : exn) : bool :=
  match e with
  | Exception msg => String.prefix "Download Failed!" msg
  | _ => false
  end.

(** ** Sample runs *)

Definition w0 : World := mkWorld 0 [] [] ∅ ∅.

Definition no_rest : string → outcome DataFrame :=
  λ _, Raise (Exception "outside the modelled texts").

(** An operating system that carries out every file operation. *)
Definition fs_ok : FileSystem :=
  mkFileSystem (λ _ _, None) (λ _ _, None) (λ _ _ _, None).

(** An operating system that finds no directory to put a new file in. *)
Definition fs_no_parent : FileSystem :=
  mkFileSystem (λ _ _, None)
    (λ path _, Some (OSError "FileNotFoundError"
                       ("[Errno 2] No such file or directory: '" +:+ path +:+ "'")))
    (λ _ _ _, None).

Definition csv_two_rows : string :=
  "a,b" +:+ String newline "1,2" +:+ String newline "3,4".

Definition ascii_space (c : ascii) : bool :=
  let n := Ascii.nat_of_ascii c in (n =? 32)%nat || ((9 <=? n)%nat && (n <=? 13)%nat).

Definition status_reply (code : Z) : Response :=
  mkResponse 200 "" (Some (JDict {["status" := JInt code]})).

Definition ready_reply (href : string) : Response :=
  mkResponse 200 "" (Some (JDict (<["href" := JStr href]> {["status" := JInt 2]}))).

(** A remote that reports status 1 for ever. *)
Definition remote_stuck : nat → Request → outcome Response :=
  λ _ _, Return (status_reply 1).

(** A remote that reports status 3. *)
Definition remote_failed : nat → Request → outcome Response :=
  λ _ _, Return (status_reply 3).

(** A remote that reports status 1 to the first [n] requests and then
    status 2 with a link. *)
Definition remote_ready_after (n : nat) : nat → Request → outcome Response :=
  λ i _, if bool_decide (i < n)%nat then Return (status_reply 1)
         else Return (ready_reply "https://files.example/export.csv").

(** A remote that answers every request with the given status code and
    body. *)
Definition remote_const (code : Z) (body : string) : nat → Request → outcome Response :=
  λ _ _, Return (mkResponse code body None).

Definition sample_link : string := "https://files.example/export.csv".

(** A retrieval of [sample_link] against a remote that answers with the
    given status code and body. *)
Definition sample_download (code : Z) (body : string) : outcome (option DataFrame) * World :=
  download_bulkSocialPosts_csv (remote_const code body) no_rest fs_ok
    sample_link "42" "" "2023-01-01" "2023-02-01" "all" false w0.

(** A poll of a job that stays in progress, with the interpreter's default
    room for a thousand nested calls. *)
Definition sample_stuck_poll : outcome json * World :=
  check_bulkDownload_status remote_stuck 1000 "tok" "key" 0 w0.

(** A poll of a job that is ready at the third query. *)
Definition sample_ready_poll : outcome json * World :=
  check_bulkDownload_status (remote_ready_after 2) 1000 "tok" "key" 0 w0.

Definition csv_without_header : string := "x,y" +:+ String newline "1,2".


Definition no_container : json → string := λ _, "".

(** A server that answers every search with the given status and
    identifiers. *)
Definition imap_const (status email_ids_0 : string)
    : string → outcome (string * string) :=
  λ _, Return (status, email_ids_0).

Definition sample_self : VEEmail := mkVEEmail "" [].

Definition sample_bytes_repr (t : string) : string := "b'" +:+ t +:+ "'".

(** * Properties *)

(** Unfold the monad of the model. *)
Ltac run :=
  unfold mbind, M_bind, bind, mret, M_ret, ret, lift, raise, try_except,
    time_time, time_sleep; simpl.

Section poller_facts.

Context (remote : nat → Request → outcome Response).

Implicit Types (w : World) (r : Response) (depth N : nat).

Lemma get_bulkDownload_status_run downloadToken apiKey w :
  get_bulkDownload_status remote downloadToken apiKey w =
  (match remote (length (sent w)) (status_request downloadToken apiKey) with
   | Return r =>
       if bool_decide (status_code r = 200) then Return r
       else Raise (Exception ("Error: " +:+ pretty (status_code r)))
   | Raise e => Raise e
   end, queried downloadToken apiKey w).
Proof.
  unfold get_bulkDownload_status, requests_get, requests_send. run.
  fold (status_request downloadToken apiKey).
  destruct (remote _ _) as [r|e]; [|done].
  by destruct (bool_decide (status_code r = 200)).
Qed.

Lemma in_progress_inv r :
  in_progress r = true →
  status_code r = 200 ∧
  ∃ d s, json_body r = Some (JDict d) ∧ d !! "status" = Some s ∧
         py_eq_int s 2 = false ∧ py_eq_int s 3 = false.
Proof.
  unfold in_progress, reported_status. intros H.
  apply andb_true_iff in H as [H200 H]. apply bool_decide_eq_true in H200.
  split; [done|].
  destruct (json_body r) as [[| | | | |d]|]; try done.
  destruct (d !! "status") as [s|] eqn:Hs; [|done].
  apply andb_true_iff in H as [H2 H3].
  exists d, s. by rewrite !negb_true_iff in H2, H3.
Qed.

(** One round: an in-progress answer costs one query and one sleep of 60
    seconds, and the function calls itself. *)
Lemma check_in_progress_step other depth downloadToken apiKey start_time w r :
  remote (length (sent w)) (status_request downloadToken apiKey) = Return r →
  in_progress r = true →
  check_bulkDownload_status_with remote other (S depth) downloadToken apiKey start_time w =
  check_bulkDownload_status_with remote other depth downloadToken apiKey start_time
    (polled downloadToken apiKey 1 w).
Proof.
  intros Hr Hin. apply in_progress_inv in Hin as (H200 & d & s & Hd & Hs & H2 & H3).
  cbn [check_bulkDownload_status_with]. unfold mbind at 1, M_bind at 1, bind at 1.
  rewrite get_bulkDownload_status_run, Hr.
  rewrite (bool_decide_eq_true_2 _ H200). cbn iota.
  rewrite (bool_decide_eq_true_2 _ H200).
  unfold Response_json. rewrite Hd. run. rewrite Hs, H2, H3.
  unfold polled, queried. simpl.
  by rewrite Z.add_0_r.
Qed.

Lemma polled_S downloadToken apiKey n w :
  polled downloadToken apiKey n (polled downloadToken apiKey 1 w) =
  polled downloadToken apiKey (S n) w.
Proof.
  unfold polled. simpl. f_equal.
  - lia.
  - rewrite Z.add_0_r, <- (assoc_L (++)). f_equal. simpl. f_equal.
    rewrite <- fmap_S_seq, <- list_fmap_compose.
    apply list_fmap_ext. intros _ i _. simpl. f_equal. lia.
  - by rewrite <- (assoc_L (++)).
Qed.

Lemma length_sent_polled downloadToken apiKey n w :
  length (sent (polled downloadToken apiKey n w)) = (length (sent w) + n)%nat.
Proof. unfold polled. simpl. by rewrite length_app, length_fmap, length_seq. Qed.

Lemma check_stuck other depth downloadToken apiKey start_time w :
  (∀ i, (i < depth)%nat →
     ∃ r, remote (length (sent w) + i)%nat (status_request downloadToken apiKey)
          = Return r ∧ in_progress r = true) →
  check_bulkDownload_status_with remote other depth downloadToken apiKey start_time w =
  (Raise RecursionError, polled downloadToken apiKey depth w).
Proof.
  revert w. induction depth as [|depth IH]; intros w Hstuck.
  - unfold polled. simpl. rewrite !app_nil_r, Z.add_0_r. by destruct w.
  - destruct (Hstuck 0%nat) as (r & Hr & Hin); [lia|]. rewrite Nat.add_0_r in Hr.
    rewrite (check_in_progress_step _ _ _ _ _ _ _ Hr Hin), IH.
    + by rewrite polled_S.
    + intros i Hi. rewrite length_sent_polled.
      destruct (Hstuck (S i)) as (r' & Hr' & Hin'); [lia|].
      exists r'. split; [|done]. rewrite <- Hr'. f_equal. lia.
Qed.

Lemma check_ready_step other depth downloadToken apiKey start_time w r href :
  remote (length (sent w)) (status_request downloadToken apiKey) = Return r →
  ready_link r = Some href →
  check_bulkDownload_status_with remote other (S depth) downloadToken apiKey start_time w =
  (Return href, queried downloadToken apiKey w).
Proof.
  intros Hr Hready. unfold ready_link in Hready.
  destruct (bool_decide (status_code r = 200)) eqn:H200; [|done].
  destruct (json_body r) as [[| | | | |d]|] eqn:Hd; try done.
  destruct (d !! "status") as [s|] eqn:Hs; [|done].
  destruct (py_eq_int s 2) eqn:H2; [|done].
  cbn [check_bulkDownload_status_with]. unfold mbind at 1, M_bind at 1, bind at 1.
  rewrite get_bulkDownload_status_run, Hr, H200. cbn iota. rewrite H200.
  unfold Response_json. rewrite Hd. run. by rewrite Hs, H2, Hready.
Qed.

Lemma check_ready_after other depth downloadToken apiKey start_time w N r href :
  (N < depth)%nat →
  (∀ i, (i < N)%nat →
     ∃ r', remote (length (sent w) + i)%nat (status_request downloadToken apiKey)
           = Return r' ∧ in_progress r' = true) →
  remote (length (sent w) + N)%nat (status_request downloadToken apiKey) = Return r →
  ready_link r = Some href →
  check_bulkDownload_status_with remote other depth downloadToken apiKey start_time w =
  (Return href, queried downloadToken apiKey (polled downloadToken apiKey N w)).
Proof.
  revert w depth. induction N as [|N IH]; intros w depth Hlt Hprog Hr Hready.
  - destruct depth as [|depth]; [lia|]. rewrite Nat.add_0_r in Hr.
    rewrite (check_ready_step _ _ _ _ _ _ _ _ Hr Hready). f_equal.
    unfold polled, queried. simpl. rewrite !app_nil_r, !Z.add_0_r. by destruct w.
  - destruct depth as [|depth]; [lia|].
    destruct (Hprog 0%nat) as (r0 & Hr0 & Hin0); [lia|]. rewrite Nat.add_0_r in Hr0.
    rewrite (check_in_progress_step _ _ _ _ _ _ _ Hr0 Hin0).
    rewrite (IH _ depth); [by rewrite polled_S | lia | | | exact Hready].
    + intros i Hi. rewrite length_sent_polled.
      destruct (Hprog (S i)) as (r' & Hr' & Hin'); [lia|].
      exists r'. split; [|done]. rewrite <- Hr'. f_equal. lia.
    + rewrite length_sent_polled, <- Hr. f_equal. lia.
Qed.

(** C1, as the code has it.  When every poll finds the job in progress the
    function applies no wait bound: it queries, sleeps 60 seconds and calls
    itself again, however long it has been waiting, and the only end is the
    interpreter's recursion limit.  With room for [depth] nested calls the
    run issues [depth] queries, the i-th at 60*i seconds after the first,
    and ends in RecursionError; no timeout error is ever raised. *)
Theorem in_progress_forever_has_no_wait_bound depth downloadToken apiKey start_time w :
  (∀ i, (i < depth)%nat →
     ∃ r, remote (length (sent w) + i)%nat (status_request downloadToken apiKey)
          = Return r ∧ in_progress r = true) →
  let run := check_bulkDownload_status remote depth downloadToken apiKey start_time w in
  run = (Raise RecursionError, polled downloadToken apiKey depth w) ∧
  (∀ i, (i < depth)%nat →
        (now w + 60 * Z.of_nat i, status_request downloadToken apiKey) ∈ sent run.2) ∧
  ∀ e, run.1 = Raise e → exn_class e = "RecursionError".
Proof.
  intros Hstuck. cbv zeta. unfold check_bulkDownload_status.
  rewrite (check_stuck _ _ _ _ _ _ Hstuck). split; [done|]. split.
  - intros i Hi. unfold polled. cbn [sent snd].
    apply elem_of_app. right. apply list_elem_of_fmap.
    exists i. split; [done|]. apply elem_of_seq. lia.
  - by intros e [= <-].
Qed.

(** C2, on the code.  A successful poll response that reports status 3
    makes the function raise TypeError, from subscripting the response
    object on line 210, before it reaches the [raise] that reports the
    failed download; exactly one query has been issued. *)
Theorem failed_status_raises_TypeError depth downloadToken apiKey start_time w r :
  remote (length (sent w)) (status_request downloadToken apiKey) = Return r →
  reports_failed r = true →
  check_bulkDownload_status remote (S depth) downloadToken apiKey start_time w =
  (Raise (TypeError "'Response' object is not subscriptable"),
   queried downloadToken apiKey w).
Proof.
  intros Hr Hf. unfold reports_failed, reported_status in Hf.
  apply andb_true_iff in Hf as [H200 Hf].
  destruct (json_body r) as [[| | | | |d]|] eqn:Hd; try done.
  destruct (d !! "status") as [s|] eqn:Hs; [|done].
  assert (H2 : py_eq_int s 2 = false).
  { destruct s as [|[]|z| | |]; try done. simpl in *.
    apply bool_decide_eq_true in Hf. by apply bool_decide_eq_false_2; lia. }
  unfold check_bulkDownload_status. cbn [check_bulkDownload_status_with].
  unfold mbind at 1, M_bind at 1, bind at 1.
  rewrite get_bulkDownload_status_run, Hr, H200. cbn iota. rewrite H200.
  unfold Response_json. rewrite Hd. run. by rewrite Hs, H2, Hf.
Qed.

(** C3, as the code has it.  When the remote reports "in progress" N times
    and then "ready", and the interpreter has room for N+1 nested calls, the
    function returns the link after exactly N+1 status queries and N sleeps
    of the fixed 60 seconds, one between each two consecutive queries: the
    i-th query is issued 60*i seconds after the first. *)
Theorem ready_after_N_polls depth downloadToken apiKey start_time w N r href :
  (N < depth)%nat →
  (∀ i, (i < N)%nat →
     ∃ r', remote (length (sent w) + i)%nat (status_request downloadToken apiKey)
           = Return r' ∧ in_progress r' = true) →
  remote (length (sent w) + N)%nat (status_request downloadToken apiKey) = Return r →
  ready_link r = Some href →
  check_bulkDownload_status remote depth downloadToken apiKey start_time w =
  (Return href,
   mkWorld (now w + 60 * Z.of_nat N)
     (sent w ++ ((λ i : nat, (now w + 60 * Z.of_nat i,
                              status_request downloadToken apiKey)) <$> seq 0 (S N)))
     (slept w ++ replicate N 60) (dirs w) (files w)).
Proof.
  intros Hlt Hprog Hr Hready.
  unfold check_bulkDownload_status.
  rewrite (check_ready_after _ _ _ _ _ _ _ _ _ Hlt Hprog Hr Hready). f_equal.
  unfold queried, polled. cbn [now sent slept dirs files]. f_equal.
  rewrite seq_S, fmap_app, Nat.add_0_l. cbn [fmap list_fmap].
  by rewrite <- (assoc_L (++)).
Qed.

(** C9.  get_bulkDownload_status returns a response only when its status
    code is 200 (otherwise it raises), so the [else] of the outer [if] of
    check_bulkDownload_status is dead code: whatever is put in its place,
    the function gives the same result and leaves the same world. *)
Theorem non_200_branch_unreachable downloadToken apiKey :
  (∀ w r w', get_bulkDownload_status remote downloadToken apiKey w = (Return r, w') →
             status_code r = 200) ∧
  (∀ other depth start_time w,
     check_bulkDownload_status_with remote other depth downloadToken apiKey start_time w =
     check_bulkDownload_status remote depth downloadToken apiKey start_time w).
Proof.
  split.
  - intros w r w'. rewrite get_bulkDownload_status_run.
    destruct (remote _ _) as [r'|e]; [|done].
    destruct (bool_decide (status_code r' = 200)) eqn:H200; [|done].
    intros [= <- _]. by apply bool_decide_eq_true in H200.
  - intros other depth start_time. unfold check_bulkDownload_status.
    induction depth as [|depth IH]; intros w; [done|].
    cbn [check_bulkDownload_status_with]. run.
    rewrite get_bulkDownload_status_run.
    destruct (remote _ _) as [r|e]; [|done].
    destruct (bool_decide (status_code r = 200)) eqn:H200; [|done].
    rewrite H200.
    destruct (Response_json r) as [data|e]; [|done].
    destruct (json_getitem data "status") as [s|e]; [|done].
    destruct (py_eq_int s 2); [done|].
    destruct (py_eq_int s 3); [done|].
    apply IH.
Qed.

End poller_facts.

Section retrieval_facts.

Context (remote : nat → Request → outcome Response).
Context (read_csv_rest : string → outcome DataFrame).
Context (os : FileSystem).

Implicit Types (w : World) (r : Response) (save_csv verbose : bool).

(** A retrieval that is answered with status 200 ends as the saving of the
    body ends when that fails, and with the parsed body or None otherwise. *)
Lemma download_run link landscapeId companyId mainPeriodStart mainPeriodEnd
    channel save_csv w r :
  remote (length (sent w)) (mkRequest GET link [] None) = Return r →
  status_code r = 200 →
  (download_bulkSocialPosts_csv remote read_csv_rest os link landscapeId companyId
     mainPeriodStart mainPeriodEnd channel save_csv w).1 =
  match save_outcome os save_csv link landscapeId companyId mainPeriodStart
          mainPeriodEnd channel r w with
  | Raise e => Raise e
  | Return _ =>
      match read_csv read_csv_rest (text r) with
      | Return df => Return (Some df)
      | Raise _ => Return None
      end
  end.
Proof.
  intros Hr H200.
  unfold download_bulkSocialPosts_csv, requests_get, requests_send, save_outcome.
  run. rewrite Hr, (bool_decide_eq_true_2 _ H200).
  fold (fetched link w). destruct save_csv.
  - destruct (save_body _ _ _ _ _ _ _ (fetched link w)) as [[[]|e] w']; simpl;
      [|done].
    by destruct (read_csv read_csv_rest (text r)).
  - run. by destruct (read_csv read_csv_rest (text r)).
Qed.

Lemma download_non_200 link landscapeId companyId mainPeriodStart mainPeriodEnd
    channel save_csv w r :
  remote (length (sent w)) (mkRequest GET link [] None) = Return r →
  status_code r ≠ 200 →
  download_bulkSocialPosts_csv remote read_csv_rest os link landscapeId companyId
    mainPeriodStart mainPeriodEnd channel save_csv w =
  (Return None, fetched link w).
Proof.
  intros Hr H200.
  unfold download_bulkSocialPosts_csv, requests_get, requests_send. run.
  by rewrite Hr, (bool_decide_eq_false_2 _ H200).
Qed.

(** C4, as the code has it.  When the retrieval succeeds (status 200) and
    the body is one that pandas refuses (empty: EmptyDataError; malformed:
    ParserError; or any other exception), the function raises no parse error
    and returns None, which is no table, rather than an empty table.  This
    is so when no saving is asked for and when the saving succeeds; the
    saving comes before the parse and outside the try, so an exception of a
    file operation leaves the function as it is. *)
Theorem download_unparsable_body_returns_None link landscapeId companyId
    mainPeriodStart mainPeriodEnd channel save_csv w r e :
  remote (length (sent w)) (mkRequest GET link [] None) = Return r →
  status_code r = 200 →
  read_csv read_csv_rest (text r) = Raise e →
  let run := download_bulkSocialPosts_csv remote read_csv_rest os link landscapeId
               companyId mainPeriodStart mainPeriodEnd channel save_csv w in
  let saved := save_outcome os save_csv link landscapeId companyId mainPeriodStart
                 mainPeriodEnd channel r w in
  (saved = Return tt → run.1 = Return None) ∧
  (∀ e', saved = Raise e' → run.1 = Raise e').
Proof.
  intros Hr H200 He. cbv zeta.
  rewrite (download_run _ _ _ _ _ _ _ _ _ Hr H200), He.
  split; [by intros ->|]. by intros e' ->.
Qed.

(** C5, on the code.  When the retrieval request comes back with a status
    other than 200 the function raises nothing: it returns None, and the
    retrieval request is the only thing it has done. *)
Theorem download_non_200_returns_None link landscapeId companyId
    mainPeriodStart mainPeriodEnd channel save_csv w r :
  remote (length (sent w)) (mkRequest GET link [] None) = Return r →
  status_code r ≠ 200 →
  let run :=
    download_bulkSocialPosts_csv remote read_csv_rest os link landscapeId companyId
      mainPeriodStart mainPeriodEnd channel save_csv w in
  run = (Return None, fetched link w) ∧ ¬ ∃ e, run.1 = Raise e.
Proof.
  intros Hr H200. cbv zeta.
  rewrite (download_non_200 _ _ _ _ _ _ _ _ _ Hr H200).
  split; [done|]. by intros [e He].
Qed.

(** C6, as the code has it.  On a successful response whose body is the
    text of the header a,b and the rows 1,2 and 3,4, the function returns a
    table whose columns are a and b and whose rows are [1, 2] and [3, 4]
    with integer cells, as pandas infers them; the cells are the strings
    "1", "2", "3", "4" only after astype(str), which the warehouse path
    applies.  This is so when no saving is asked for and when the saving
    succeeds; an exception of a file operation of the saving leaves the
    function as it is, before the body is parsed. *)
Theorem download_two_row_csv link landscapeId companyId
    mainPeriodStart mainPeriodEnd channel save_csv w r :
  remote (length (sent w)) (mkRequest GET link [] None) = Return r →
  status_code r = 200 →
  text r = csv_two_rows →
  let run := download_bulkSocialPosts_csv remote read_csv_rest os link landscapeId
               companyId mainPeriodStart mainPeriodEnd channel save_csv w in
  let saved := save_outcome os save_csv link landscapeId companyId mainPeriodStart
                 mainPeriodEnd channel r w in
  ∃ df,
    columns df = ["a"; "b"] ∧
    rows df = [[CInt 1; CInt 2]; [CInt 3; CInt 4]] ∧
    rows (astype_str df) = [[CStr "1"; CStr "2"]; [CStr "3"; CStr "4"]] ∧
    (saved = Return tt → run.1 = Return (Some df)) ∧
    (∀ e', saved = Raise e' → run.1 = Raise e').
Proof.
  intros Hr H200 Htext. cbv zeta.
  exists (mkDataFrame ["a"; "b"] [[CInt 1; CInt 2]; [CInt 3; CInt 4]]).
  split; [done|]. split; [done|]. split; [done|].
  rewrite (download_run _ _ _ _ _ _ _ _ _ Hr H200), Htext.
  split; [by intros ->|]. by intros e' ->.
Qed.

(** C7.  With more than 10 company IDs the function raises before any
    request is issued (the world is untouched); with at most 10 IDs, all of
    them integers, it issues the POST request that carries them. *)
Theorem post_followCompanies_at_most_10 apiKey landscapeId companyIds verbose w :
  ((10 < length companyIds)%nat →
   post_followCompanies remote apiKey landscapeId companyIds verbose w =
   (Raise (Exception "At most 10 companies can be followed at a time."), w)) ∧
  ((length companyIds ≤ 10)%nat →
   Forall (λ v, ∃ z, v = VInt z) companyIds →
   sent (post_followCompanies remote apiKey landscapeId companyIds verbose w).2 =
   sent w ++ [(now w, follow_request apiKey landscapeId companyIds)]).
Proof.
  unfold post_followCompanies. split.
  - intros Hlen. by rewrite (bool_decide_eq_true_2 _ Hlen).
  - intros Hlen Hint.
    rewrite bool_decide_eq_false_2 by lia.
    assert (forallb isinstance_int companyIds = true) as ->.
    { apply forallb_forall. intros v Hv.
      rewrite Forall_forall in Hint. apply list_elem_of_In in Hv.
      by destruct (Hint v Hv) as [z ->]. }
    unfold requests_post, requests_send. run.
    fold (follow_request apiKey landscapeId companyIds).
    destruct (remote _ _) as [r|e]; [|done].
    destruct (bool_decide (status_code r = 200)); [|done].
    destruct verbose; [|done]. simpl.
    by destruct (Response_json r).
Qed.

End retrieval_facts.

Section text_facts.

Lemma split_on_not_nil sep s : split_on sep s ≠ [].
Proof.
  destruct s as [|c s]; simpl; [done|].
  destruct (Ascii.eqb c sep); [done|]. by destruct (split_on sep s).
Qed.

(** Splitting on a separator and joining with it gives the text back. *)
Lemma join_split_on sep s : join sep (split_on sep s) = s.
Proof.
  induction s as [|c s IH]; [done|]. simpl.
  destruct (Ascii.eqb_spec c sep) as [->|Hne].
  - pose proof (split_on_not_nil sep s) as Hnil.
    destruct (split_on sep s) as [|x xs]; [done|].
    change (join sep ("" :: x :: xs)) with (String sep (join sep (x :: xs))).
    by rewrite IH.
  - pose proof (split_on_not_nil sep s) as Hnil.
    destruct (split_on sep s) as [|x xs]; [done|].
    rewrite <- IH. by destruct xs.
Qed.

Lemma append_cons c s t : String c s +:+ t = String c (s +:+ t).
Proof. reflexivity. Qed.

Lemma prefix_app p s : String.prefix p (p +:+ s) = true.
Proof.
  induction p as [|c p IH]; simpl; [by destruct s|].
  by destruct (ascii_dec c c).
Qed.

Lemma is_substring_prefix p s : String.prefix p s = true → is_substring p s = true.
Proof. intros H. destruct s; cbn [is_substring]; by rewrite H. Qed.

Lemma is_substring_app s1 u s2 : is_substring u (s1 +:+ u +:+ s2) = true.
Proof.
  induction s1 as [|c s1 IH].
  - change ("" +:+ u +:+ s2) with (u +:+ s2).
    apply is_substring_prefix, prefix_app.
  - change (String c s1 +:+ u +:+ s2) with (String c (s1 +:+ u +:+ s2)).
    cbn [is_substring]. by rewrite IH, orb_true_r.
Qed.

Lemma find_header_row_None key_columns i lines :
  Forall (λ line, forallb (λ k, is_substring k line) key_columns = false) lines →
  find_header_row key_columns i lines = None.
Proof.
  intros H. revert i. induction H as [|line lines Hline _ IH]; intros i; [done|].
  simpl. by rewrite Hline.
Qed.

End text_facts.

Section regex_facts.

Implicit Types (p : list atom) (s m r u : string).

(** A match is a prefix of the text it is found in. *)
Lemma match_plus_split class (rest : string → option (string * string)) s m r :
  (∀ s m r, rest s = Some (m, r) → s = m +:+ r) →
  match_plus class rest s = Some (m, r) → s = m +:+ r.
Proof.
  intros Hrest. revert m r. induction s as [|c s IHs]; intros m r; [done|].
  simpl. destruct (class c); [|done].
  destruct (match_plus class rest s) as [[m' r']|] eqn:E.
  - intros [= <- <-]. rewrite append_cons. f_equal. by apply IHs.
  - destruct (rest s) as [[m' r']|] eqn:E'; [|done].
    intros [= <- <-]. rewrite append_cons. f_equal. by apply Hrest.
Qed.

Lemma match_here_split p s m r : match_here p s = Some (m, r) → s = m +:+ r.
Proof.
  revert s m r. induction p as [|[c|c|class] p IH]; intros s m r.
  - simpl. by intros [= <- <-].
  - simpl. destruct s as [|c' s]; [done|].
    destruct (Ascii.eqb c c'); [|done].
    destruct (match_here p s) as [[m' r']|] eqn:E; [|done].
    intros [= <- <-]. rewrite append_cons. f_equal. by apply IH.
  - simpl. destruct s as [|c' s]; [by apply IH|].
    destruct (Ascii.eqb c c'); [|by apply IH].
    destruct (match_here p s) as [[m' r']|] eqn:E; [|by apply IH].
    intros [= <- <-]. rewrite append_cons. f_equal. by apply IH.
  - simpl. apply match_plus_split. apply IH.
Qed.

(** A pattern that begins with an escaped text matches only texts that
    begin with it. *)
Lemma match_here_escape b p s m r :
  match_here (re_escape b ++ p) s = Some (m, r) →
  ∃ s' m', s = b +:+ s' ∧ m = b +:+ m' ∧ match_here p s' = Some (m', r).
Proof.
  revert s m. induction b as [|c b IH]; intros s m H.
  - by exists s, m.
  - unfold re_escape in *. simpl in H.
    destruct s as [|c' s]; [done|].
    destruct (Ascii.eqb_spec c c') as [<-|]; [|done].
    destruct (match_here _ s) as [[m0 r0]|] eqn:E; [|done].
    injection H as <- <-.
    destruct (IH _ _ E) as (s' & m' & -> & -> & Hm).
    by exists s', m'.
Qed.

(** Every text that [findall] returns is a match of the pattern at some
    position of the text searched. *)
Lemma findall_from_match p skip s u :
  u ∈ findall_from p skip s →
  ∃ s1 s2 r, s = s1 +:+ s2 ∧ match_here p s2 = Some (u, r).
Proof.
  revert skip. induction s as [|c s IH]; intros skip Hu; [by apply elem_of_nil in Hu|].
  simpl in Hu. destruct skip as [|k].
  - destruct (match_here p (String c s)) as [[m r]|] eqn:E.
    + apply elem_of_cons in Hu as [->|Hu].
      * by exists "", (String c s), r.
      * destruct (IH _ Hu) as (s1 & s2 & r' & -> & Hm).
        by exists (String c s1), s2, r'.
    + destruct (IH _ Hu) as (s1 & s2 & r' & -> & Hm).
      by exists (String c s1), s2, r'.
  - destruct (IH _ Hu) as (s1 & s2 & r' & -> & Hm).
    by exists (String c s1), s2, r'.
Qed.

Lemma findall_substring p s u : u ∈ findall p s → is_substring u s = true.
Proof.
  intros Hu. destruct (findall_from_match _ _ _ _ Hu) as (s1 & s2 & r & -> & Hm).
  apply match_here_split in Hm as ->. apply is_substring_app.
Qed.

End regex_facts.

Section vee_mails_facts.

Context (is_space : ascii → bool).
Context (read_csv_rest : string → outcome DataFrame).

Lemma url_pattern_begins base_url s u r :
  match_here (url_pattern is_space base_url) s = Some (u, r) →
  begins_as_asked base_url u = true.
Proof.
  destruct base_url as [b|]; unfold url_pattern, begins_as_asked; intros H.
  - apply match_here_escape in H as (s' & m' & _ & -> & _). apply prefix_app.
  - apply match_here_escape in H as (s' & m' & _ & -> & H).
    change ([Opt "s"] ++ re_escape "://" ++ [Plus (url_char is_space)])
      with (Opt "s" :: (re_escape "://" ++ [Plus (url_char is_space)])) in H.
    cbn [match_here] in H.
    destruct s' as [|c' s''].
    + by apply match_here_escape in H as (? & ? & ? & _).
    + destruct (Ascii.eqb_spec "s" c') as [<-|Hne].
      * destruct (match_here _ s'') as [[m0 r0]|] eqn:E.
        -- injection H as <- <-.
           apply match_here_escape in E as (? & m1 & _ & -> & _).
           apply orb_true_iff. right. exact (prefix_app "https://" m1).
        -- by apply match_here_escape in H as (? & ? & ? & _).
      * apply match_here_escape in H as (? & m1 & _ & -> & _).
        apply orb_true_iff. left. exact (prefix_app "http://" m1).
Qed.

(** C8.  The function returns the match when the search for the URL
    pattern in the body finds exactly one, and raises ValueError when it
    finds none or more than one.  The match returned occurs in the body and
    begins with the base URL when one is given (with http:// or https://
    otherwise). *)
Theorem extract_url_from_body_single_match body base_url :
  let urls := findall (url_pattern is_space base_url) body in
  (∀ u, urls = [u] →
        extract_url_from_body is_space body base_url = Return u ∧
        is_substring u body = true ∧
        begins_as_asked base_url u = true) ∧
  (urls = [] →
   extract_url_from_body is_space body base_url =
   Raise (ValueError "No URL found in the email content.")) ∧
  ((1 < length urls)%nat →
   extract_url_from_body is_space body base_url =
   Raise (ValueError "More than one URL found in the email content.")).
Proof.
  cbv zeta. unfold extract_url_from_body. split; [|split].
  - intros u Hu.
    assert (Hin : u ∈ findall (url_pattern is_space base_url) body)
      by (rewrite Hu; apply list_elem_of_here).
    rewrite Hu. split; [done|]. split.
    + by apply findall_substring in Hin.
    + destruct (findall_from_match _ _ _ _ Hin) as (s1 & s2 & r & _ & Hm).
      by apply url_pattern_begins in Hm.
  - by intros ->.
  - intros Hlen.
    destruct (findall _ body) as [|u1 [|u2 urls]]; simpl in Hlen; [lia|lia|done].
Qed.

(** C10, as the code has it.  When no line of the content contains every
    key column, the header-row index stays None, the slice of the lines
    from None is the whole list, and the function parses the whole content:
    its result is the result of read_csv on the content as it was given.
    No type error arises. *)
Theorem parse_csv_without_header_row csv_content key_columns :
  Forall (λ line, forallb (λ k, is_substring k line)
                    (default default_key_columns key_columns) = false)
         (split_on newline csv_content) →
  parse_csv read_csv_rest csv_content key_columns =
  read_csv read_csv_rest csv_content.
Proof.
  intros H. unfold parse_csv.
  rewrite (find_header_row_None _ _ _ H). unfold slice_from.
  by rewrite join_split_on.
Qed.

End vee_mails_facts.

Lemma in_progress_forever_has_no_wait_bound_witness :
  sample_stuck_poll = (Raise RecursionError, polled "tok" "key" 1000 w0).
Proof.
  apply (in_progress_forever_has_no_wait_bound remote_stuck 1000 "tok" "key" 0 w0).
  intros i _. exists (status_reply 1). split; reflexivity.
Defined.

(** C1 fails on the code: with a wait bound of 100 seconds and a job that
    stays in progress, a status query is still issued 120 seconds after the
    start, and the run ends in RecursionError, not in a timeout error. *)
Lemma stuck_job_polls_past_the_deadline :
  sample_stuck_poll.1 = Raise RecursionError ∧
  (120, status_request "tok" "key") ∈ sent sample_stuck_poll.2 ∧
  ¬ stops_at_deadline 100 0 sample_stuck_poll.
Proof.
  unfold sample_stuck_poll, check_bulkDownload_status.
  rewrite (check_stuck remote_stuck non_200_branch 1000 "tok" "key" 0 w0).
  2: { intros i _. exists (status_reply 1). split; reflexivity. }
  assert (Hin : (120, status_request "tok" "key") ∈ sent (polled "tok" "key" 1000 w0)).
  { unfold polled. cbn [sent w0 now]. rewrite app_nil_l.
    apply list_elem_of_fmap. exists 2%nat. split; [reflexivity|].
    apply elem_of_seq. lia. }
  split; [done|]. split; [done|].
  intros [Hbound _]. specialize (Hbound _ _ Hin). lia.
Qed.

Lemma failed_status_raises_TypeError_witness :
  let run := check_bulkDownload_status remote_failed 1000 "tok" "key" 0 w0 in
  run = (Raise (TypeError "'Response' object is not subscriptable"),
         queried "tok" "key" w0) ∧
  reports_download_failure (TypeError "'Response' object is not subscriptable") = false.
Proof.
  split; [|reflexivity].
  apply (failed_status_raises_TypeError remote_failed 999 "tok" "key" 0 w0
           (status_reply 3)); reflexivity.
Defined.

Lemma ready_after_N_polls_witness :
  check_bulkDownload_status (remote_ready_after 2) 1000 "tok" "key" 0 w0 =
  (Return (JStr "https://files.example/export.csv"),
   mkWorld 120
     [(0, status_request "tok" "key"); (60, status_request "tok" "key");
      (120, status_request "tok" "key")]
     [60; 60] ∅ ∅).
Proof.
  apply (ready_after_N_polls (remote_ready_after 2) 1000 "tok" "key" 0 w0 2
           (ready_reply "https://files.example/export.csv")
           (JStr "https://files.example/export.csv")).
  - lia.
  - intros i Hi. exists (status_reply 1). split; [|reflexivity].
    unfold remote_ready_after. cbn [sent w0 length Nat.add].
    by rewrite bool_decide_eq_true_2.
  - reflexivity.
  - reflexivity.
Defined.

(** C3 fails on the code: a caller who wants to wait 5 seconds between
    polls has no way to say so; with two in-progress answers before the
    ready one, the three queries are separated by sleeps of 60 seconds. *)
Lemma poll_interval_is_not_configurable :
  length (sent sample_ready_poll.2) = 3%nat ∧
  slept sample_ready_poll.2 = [60; 60] ∧
  ¬ waits_configured_interval 5 2 w0 sample_ready_poll.2.
Proof.
  unfold sample_ready_poll, check_bulkDownload_status.
  rewrite (check_ready_after (remote_ready_after 2) non_200_branch 1000 "tok" "key"
             0 w0 2 (ready_reply "https://files.example/export.csv")
             (JStr "https://files.example/export.csv")).
  - split; [reflexivity|]. split; [reflexivity|].
    unfold waits_configured_interval. cbn. discriminate.
  - lia.
  - intros i Hi. exists (status_reply 1). split; [|reflexivity].
    unfold remote_ready_after. cbn [sent w0 length Nat.add].
    by rewrite bool_decide_eq_true_2.
  - reflexivity.
  - reflexivity.
Qed.

Lemma non_200_branch_unreachable_witness :
  status_code (status_reply 1) = 200 ∧
  check_bulkDownload_status_with remote_stuck (λ _, ret JNull) 3 "tok" "key" 0 w0 =
  check_bulkDownload_status remote_stuck 3 "tok" "key" 0 w0.
Proof.
  destruct (non_200_branch_unreachable remote_stuck "tok" "key") as [H1 H2].
  split.
  - apply (H1 w0 (status_reply 1) (queried "tok" "key" w0)). reflexivity.
  - apply H2.
Defined.

Lemma download_unparsable_body_returns_None_witness :
  (sample_download 200 "").1 = Return None ∧
  (download_bulkSocialPosts_csv (remote_const 200 "") no_rest fs_no_parent
     sample_link "42" "" "2023/01/01" "2023-02-01" "all" true w0).1 =
  Raise (OSError "FileNotFoundError"
           ("[Errno 2] No such file or directory: '"
            +:+ bulk_filename "42" "all" "2023/01/01" "2023-02-01" "all" +:+ "'")).
Proof.
  split.
  - apply (download_unparsable_body_returns_None (remote_const 200 "") no_rest fs_ok
             sample_link "42" "" "2023-01-01" "2023-02-01" "all" false w0
             (mkResponse 200 "" None)
             (EmptyDataError "No columns to parse from file"));
      reflexivity.
  - apply (download_unparsable_body_returns_None (remote_const 200 "") no_rest
             fs_no_parent sample_link "42" "" "2023/01/01" "2023-02-01" "all" true
             w0 (mkResponse 200 "" None)
             (EmptyDataError "No columns to parse from file"));
      reflexivity.
Defined.

(** C4 fails on the code: on a successful response with an empty body the
    function returns None, which is no table at all, and the same holds for
    a body with a row that is too long. *)
Lemma empty_body_gives_None_not_an_empty_table :
  (sample_download 200 "").1 = Return None ∧
  (sample_download 200 (csv_two_rows +:+ ",5")).1 = Return None ∧
  ¬ ∃ df, (sample_download 200 "").1 = Return (Some df) ∧ rows df = [].
Proof.
  assert (H1 : (sample_download 200 "").1 = Return None).
  { unfold sample_download.
    by rewrite (download_run (remote_const 200 "") no_rest fs_ok _ _ _ _ _ _ _ w0
                  (mkResponse 200 "" None) eq_refl eq_refl). }
  split; [done|]. split.
  - unfold sample_download.
    by rewrite (download_run (remote_const 200 _) no_rest fs_ok _ _ _ _ _ _ _ w0
                  (mkResponse 200 (csv_two_rows +:+ ",5") None) eq_refl eq_refl).
  - intros (df & Hdf & _). by rewrite H1 in Hdf.
Qed.

Lemma download_non_200_returns_None_witness :
  sample_download 404 "Not Found" = (Return None, fetched sample_link w0).
Proof.
  apply (download_non_200_returns_None (remote_const 404 "Not Found") no_rest fs_ok
           "https://files.example/export.csv" "42" "" "2023-01-01" "2023-02-01"
           "all" false w0 (mkResponse 404 "Not Found" None)).
  - reflexivity.
  - simpl. lia.
Defined.

(** C5 on a sample: when the retrieval request is answered with status 404
    the function returns None; it raises no exception. *)
Lemma http_404_returns_instead_of_raising :
  (sample_download 404 "Not Found").1 = Return None ∧
  ¬ ∃ e, (sample_download 404 "Not Found").1 = Raise e.
Proof.
  unfold sample_download.
  rewrite (download_non_200 (remote_const 404 "Not Found") no_rest fs_ok
             _ _ _ _ _ _ _ w0
             (mkResponse 404 "Not Found" None) eq_refl) by (simpl; lia).
  split; [done|]. by intros [e He].
Qed.

Lemma download_two_row_csv_witness :
  ∃ df,
    columns df = ["a"; "b"] ∧
    rows df = [[CInt 1; CInt 2]; [CInt 3; CInt 4]] ∧
    rows (astype_str df) = [[CStr "1"; CStr "2"]; [CStr "3"; CStr "4"]] ∧
    (sample_download 200 csv_two_rows).1 = Return (Some df).
Proof.
  destruct (download_two_row_csv (remote_const 200 csv_two_rows) no_rest fs_ok
              sample_link "42" "" "2023-01-01" "2023-02-01" "all" false w0
              (mkResponse 200 csv_two_rows None) eq_refl eq_refl eq_refl)
    as (df & Hcols & Hrows & Hstr & Hok & _).
  exists df. repeat split; [done|done|done|]. by apply Hok.
Defined.

(** C6 fails on the code: the cells of the table returned for the two-row
    text are the integers 1, 2, 3, 4, not the strings "1", "2", "3", "4". *)
Lemma two_row_csv_cells_are_integers :
  (sample_download 200 csv_two_rows).1 =
  Return (Some (mkDataFrame ["a"; "b"] [[CInt 1; CInt 2]; [CInt 3; CInt 4]])) ∧
  ¬ ∃ df, (sample_download 200 csv_two_rows).1 = Return (Some df) ∧
          rows df = [[CStr "1"; CStr "2"]; [CStr "3"; CStr "4"]].
Proof.
  assert (H : (sample_download 200 csv_two_rows).1 =
              Return (Some (mkDataFrame ["a"; "b"]
                              [[CInt 1; CInt 2]; [CInt 3; CInt 4]]))).
  { unfold sample_download.
    by rewrite (download_run (remote_const 200 csv_two_rows) no_rest fs_ok
                  _ _ _ _ _ _ _ w0
                  (mkResponse 200 csv_two_rows None) eq_refl eq_refl). }
  split; [done|]. intros (df & Hdf & Hrows).
  rewrite H in Hdf. injection Hdf as <-. discriminate Hrows.
Qed.

Lemma post_followCompanies_at_most_10_witness :
  post_followCompanies (remote_const 200 "") "key" "42"
    (VInt <$> [1; 2; 3; 4; 5; 6; 7; 8; 9; 10; 11]) false w0 =
  (Raise (Exception "At most 10 companies can be followed at a time."), w0) ∧
  sent (post_followCompanies (remote_const 200 "") "key" "42"
          (VInt <$> [1; 2; 3]) false w0).2 =
  [(0, follow_request "key" "42" (VInt <$> [1; 2; 3]))].
Proof.
  split.
  - apply (post_followCompanies_at_most_10 (remote_const 200 "") "key" "42"
             (VInt <$> [1; 2; 3; 4; 5; 6; 7; 8; 9; 10; 11]) false w0).
    simpl. lia.
  - apply (post_followCompanies_at_most_10 (remote_const 200 "") "key" "42"
             (VInt <$> [1; 2; 3]) false w0).
    + simpl. lia.
    + repeat constructor; eexists; reflexivity.
Defined.

Lemma extract_url_from_body_single_match_witness :
  extract_url_from_body ascii_space
    "Your report: https://example.com/r/1 (expires soon)"
    (Some "https://example.com") = Return "https://example.com/r/1" ∧
  extract_url_from_body ascii_space "No URLs here" (Some "https://example.com") =
  Raise (ValueError "No URL found in the email content.") ∧
  extract_url_from_body ascii_space
    "Multiple URLs: https://example.com, https://example.org" None =
  Raise (ValueError "More than one URL found in the email content.").
Proof.
  split; [|split].
  - apply (extract_url_from_body_single_match ascii_space
             "Your report: https://example.com/r/1 (expires soon)"
             (Some "https://example.com")).
    reflexivity.
  - apply (extract_url_from_body_single_match ascii_space "No URLs here"
             (Some "https://example.com")).
    reflexivity.
  - apply (extract_url_from_body_single_match ascii_space
             "Multiple URLs: https://example.com, https://example.org" None).
    vm_compute. lia.
Defined.

Lemma parse_csv_without_header_row_witness :
  parse_csv no_rest csv_without_header None = read_csv no_rest csv_without_header.
Proof.
  apply (parse_csv_without_header_row no_rest csv_without_header None).
  repeat constructor.
Defined.

(** C10 fails on the code: a content with no line that contains the key
    columns is parsed from its first line and a table is returned; no type
    error arises. *)
Lemma missing_header_row_is_parsed_whole :
  find_header_row default_key_columns 0 (split_on newline csv_without_header) = None ∧
  parse_csv no_rest csv_without_header None =
  Return (mkDataFrame ["x"; "y"] [[CInt 1; CInt 2]]) ∧
  ¬ ∃ msg, parse_csv no_rest csv_without_header None = Raise (TypeError msg).
Proof.
  assert (H : parse_csv no_rest csv_without_header None =
              Return (mkDataFrame ["x"; "y"] [[CInt 1; CInt 2]])) by reflexivity.
  split; [reflexivity|]. split; [done|].
  intros [msg Hmsg]. by rewrite H in Hmsg.
Qed.

(** * Further properties of the poller *)

Section poller_more.

Context (remote : nat → Request → outcome Response).

Implicit Types (w : World) (r : Response) (depth : nat).

(** The first step of a poll, for any answer of the remote. *)
Lemma check_unfold depth downloadToken apiKey start_time w :
  check_bulkDownload_status remote (S depth) downloadToken apiKey start_time w =
  match remote (length (sent w)) (status_request downloadToken apiKey) with
  | Raise e => (Raise e, queried downloadToken apiKey w)
  | Return r =>
      if bool_decide (status_code r = 200) then
        match Response_json r with
        | Raise e => (Raise e, queried downloadToken apiKey w)
        | Return data =>
            match json_getitem data "status" with
            | Raise e => (Raise e, queried downloadToken apiKey w)
            | Return status =>
                if py_eq_int status 2 then
                  (json_getitem data "href", queried downloadToken apiKey w)
                else if py_eq_int status 3 then
                  (Raise (TypeError "'Response' object is not subscriptable"),
                   queried downloadToken apiKey w)
                else
                  check_bulkDownload_status remote depth downloadToken apiKey
                    start_time (polled downloadToken apiKey 1 w)
            end
        end
      else (Raise (Exception ("Error: " +:+ pretty (status_code r))),
            queried downloadToken apiKey w)
  end.
Proof.
  unfold check_bulkDownload_status. cbn [check_bulkDownload_status_with].
  unfold mbind at 1, M_bind at 1, bind at 1.
  rewrite get_bulkDownload_status_run.
  destruct (remote _ _) as [r|e]; [|done].
  destruct (bool_decide (status_code r = 200)) eqn:H200; [|done].
  cbn iota. rewrite H200. run.
  destruct (Response_json r) as [data|e]; [|done].
  destruct (json_getitem data "status") as [status|e]; [|done].
  destruct (py_eq_int status 2); [done|].
  destruct (py_eq_int status 3); [done|].
  unfold polled, queried. simpl. by rewrite Z.add_0_r.
Qed.

(** X1.  When the first answer already reports "ready", the link is
    returned after that single query: nothing is slept and the clock has
    not moved. *)
Theorem ready_at_once_returns_without_sleeping
    depth downloadToken apiKey start_time w r href :
  remote (length (sent w)) (status_request downloadToken apiKey) = Return r →
  ready_link r = Some href →
  let run := check_bulkDownload_status remote (S depth) downloadToken apiKey
               start_time w in
  run.1 = Return href ∧
  sent run.2 = sent w ++ [(now w, status_request downloadToken apiKey)] ∧
  slept run.2 = slept w ∧ now run.2 = now w.
Proof.
  intros Hr Hready. cbv zeta. unfold check_bulkDownload_status.
  by rewrite (check_ready_step _ _ _ _ _ _ _ _ _ Hr Hready).
Qed.

(** X2.  An HTTP error while polling is fatal: when a status query is
    answered with a code other than 200, or cannot be sent at all, the
    exception goes to the caller after that one query, with no sleep and no
    further attempt. *)
Theorem poll_http_error_is_fatal depth downloadToken apiKey start_time w :
  (∀ r, remote (length (sent w)) (status_request downloadToken apiKey) = Return r →
        status_code r ≠ 200 →
        check_bulkDownload_status remote (S depth) downloadToken apiKey start_time w =
        (Raise (Exception ("Error: " +:+ pretty (status_code r))),
         queried downloadToken apiKey w)) ∧
  (∀ e, remote (length (sent w)) (status_request downloadToken apiKey) = Raise e →
        check_bulkDownload_status remote (S depth) downloadToken apiKey start_time w =
        (Raise e, queried downloadToken apiKey w)).
Proof.
  split.
  - intros r Hr H200. rewrite check_unfold, Hr.
    by rewrite (bool_decide_eq_false_2 _ H200).
  - intros e He. by rewrite check_unfold, He.
Qed.

(** X3.  A successful answer that is not what the poller expects ends the
    poll at once with the exception of the failed access: a body that is not
    JSON raises JSONDecodeError, a JSON object without "status" raises
    KeyError("status"), and a "ready" answer without "href" raises
    KeyError("href").  None of them is retried. *)
Theorem malformed_poll_answer_raises depth downloadToken apiKey start_time w r :
  remote (length (sent w)) (status_request downloadToken apiKey) = Return r →
  status_code r = 200 →
  let run := check_bulkDownload_status remote (S depth) downloadToken apiKey
               start_time w in
  (json_body r = None → run = (Raise JSONDecodeError, queried downloadToken apiKey w)) ∧
  (∀ d, json_body r = Some (JDict d) → d !! "status" = None →
        run = (Raise (KeyError "status"), queried downloadToken apiKey w)) ∧
  (∀ d s, json_body r = Some (JDict d) → d !! "status" = Some s →
          py_eq_int s 2 = true → d !! "href" = None →
          run = (Raise (KeyError "href"), queried downloadToken apiKey w)).
Proof.
  intros Hr H200. cbv zeta. rewrite check_unfold, Hr, (bool_decide_eq_true_2 _ H200).
  unfold Response_json. split; [|split].
  - by intros ->.
  - intros d -> Hs. simpl. by rewrite Hs.
  - intros d s -> Hs H2 Hh. simpl. by rewrite Hs, H2, Hh.
Qed.

(** X4.  Whatever the remote answers, a poll only ever issues the status
    request of its own token, at most [depth] times, sleeps 60 seconds after
    each query but possibly the last, and touches no file: the i-th query is
    sent 60*i seconds after the first, and the clock ends 60 seconds times
    the number of sleeps after it started. *)
Theorem poll_footprint depth downloadToken apiKey start_time w :
  let w' := (check_bulkDownload_status remote depth downloadToken apiKey
               start_time w).2 in
  ∃ queries sleeps : nat,
    (queries ≤ depth)%nat ∧ (sleeps ≤ queries)%nat ∧ (queries ≤ S sleeps)%nat ∧
    sent w' = sent w ++ ((λ i : nat, (now w + 60 * Z.of_nat i,
                                      status_request downloadToken apiKey))
                         <$> seq 0 queries) ∧
    slept w' = slept w ++ replicate sleeps 60 ∧
    now w' = now w + 60 * Z.of_nat sleeps ∧
    dirs w' = dirs w ∧ files w' = files w.
Proof.
  cbv zeta. revert w. induction depth as [|depth IH]; intros w.
  - exists 0%nat, 0%nat. simpl. rewrite !app_nil_r. repeat split; lia.
  - assert (Hstop : ∀ o : outcome json,
              ∃ queries sleeps : nat,
                (queries ≤ S depth)%nat ∧ (sleeps ≤ queries)%nat ∧
                (queries ≤ S sleeps)%nat ∧
                sent (o, queried downloadToken apiKey w).2 =
                sent w ++ ((λ i : nat, (now w + 60 * Z.of_nat i,
                                        status_request downloadToken apiKey))
                           <$> seq 0 queries) ∧
                slept (o, queried downloadToken apiKey w).2 =
                slept w ++ replicate sleeps 60 ∧
                now (o, queried downloadToken apiKey w).2 =
                now w + 60 * Z.of_nat sleeps ∧
                dirs (o, queried downloadToken apiKey w).2 = dirs w ∧
                files (o, queried downloadToken apiKey w).2 = files w).
    { intros o. exists 1%nat, 0%nat. simpl.
      rewrite !app_nil_r, !Z.add_0_r. repeat split; lia. }
    rewrite check_unfold.
    destruct (remote _ _) as [r|e]; [|apply Hstop].
    destruct (bool_decide (status_code r = 200)); [|apply Hstop].
    destruct (Response_json r) as [data|e]; [|apply Hstop].
    destruct (json_getitem data "status") as [status|e]; [|apply Hstop].
    destruct (py_eq_int status 2); [apply Hstop|].
    destruct (py_eq_int status 3); [apply Hstop|].
    destruct (IH (polled downloadToken apiKey 1 w))
      as (q & sl & Hq & Hsl & Hqs & Hsent & Hslept & Hnow & Hdirs & Hfiles).
    exists (S q), (S sl).
    rewrite Hsent, Hslept, Hnow, Hdirs, Hfiles.
    pose proof (polled_S downloadToken apiKey q w) as HS.
    pose proof (polled_S downloadToken apiKey sl w) as HS'.
    unfold polled in HS, HS'. cbn [now sent slept dirs files] in HS, HS'.
    injection HS as _ HSent _. injection HS' as HNow _ HSlept.
    unfold polled. cbn [now sent slept dirs files].
    split; [lia|]. split; [lia|]. split; [lia|].
    split; [exact HSent|]. split; [exact HSlept|]. split; [exact HNow|]. done.
Qed.

End poller_more.

(** * Further properties of the retrieval, the follow request and the pipeline *)

Section retrieval_more.

Context (remote : nat → Request → outcome Response).
Context (read_csv_rest : string → outcome DataFrame).
Context (str_container : json → string).
Context (os : FileSystem).

Implicit Types (w : World) (r : Response) (save_csv verbose : bool).

(** The saving sends no request and does not sleep. *)
Lemma save_body_quiet landscapeId companyId mainPeriodStart mainPeriodEnd channel
    body w :
  let res := save_body os landscapeId companyId mainPeriodStart mainPeriodEnd
               channel body w in
  sent res.2 = sent w ∧ slept res.2 = slept w ∧ now res.2 = now w.
Proof.
  cbv zeta. unfold save_body, os_path_exists, os_makedirs, write_file. run.
  destruct (negb _); simpl.
  - destruct (fs_makedirs os _ w); simpl; [done|].
    destruct (fs_open os _ _); simpl; [done|].
    by destruct (fs_write os _ _ _) as [[? ?]|].
  - destruct (fs_open os _ _); simpl; [done|].
    by destruct (fs_write os _ _ _) as [[? ?]|].
Qed.

(** X5.  The retrieval raises no HTTP error and no parse error.  An
    exception that leaves it is either the failure to send the request, or,
    when the answer is 200 and saving is asked for, the exception of a file
    operation of the saving; whatever the remote answers when no saving is
    asked for, the function returns (a table or None).  In every case it
    sends exactly one request and does not sleep. *)
Theorem download_raises_only_transport_and_file_errors link landscapeId companyId
    mainPeriodStart mainPeriodEnd channel save_csv w :
  let run := download_bulkSocialPosts_csv remote read_csv_rest os link landscapeId
               companyId mainPeriodStart mainPeriodEnd channel save_csv w in
  (∀ e, run.1 = Raise e →
        remote (length (sent w)) (mkRequest GET link [] None) = Raise e ∨
        ∃ r, remote (length (sent w)) (mkRequest GET link [] None) = Return r ∧
             status_code r = 200 ∧ save_csv = true ∧
             save_outcome os save_csv link landscapeId companyId mainPeriodStart
               mainPeriodEnd channel r w = Raise e) ∧
  (∀ r, remote (length (sent w)) (mkRequest GET link [] None) = Return r →
        save_csv = false → ∃ v, run.1 = Return v) ∧
  (∀ e, remote (length (sent w)) (mkRequest GET link [] None) = Raise e →
        run = (Raise e, fetched link w)) ∧
  sent run.2 = sent w ++ [(now w, mkRequest GET link [] None)] ∧
  slept run.2 = slept w ∧ now run.2 = now w.
Proof.
  cbv zeta. split; [|split; [|split]].
  - intros e He.
    destruct (remote _ _) as [r|e0] eqn:Hr.
    + destruct (decide (status_code r = 200)) as [H200|H200].
      * rewrite (download_run _ _ _ _ _ _ _ _ _ _ _ _ Hr H200) in He.
        right. exists r. split; [done|]. split; [done|].
        destruct save_csv; [|simpl in He; by destruct (read_csv _ _)].
        split; [done|].
        destruct (save_outcome _ _ _ _ _ _ _ _ _ _) as [[]|e1]; [|by injection He as ->].
        by destruct (read_csv _ _).
      * by rewrite (download_non_200 _ _ _ _ _ _ _ _ _ _ _ _ Hr H200) in He.
    + left. revert He.
      unfold download_bulkSocialPosts_csv, requests_get, requests_send. run.
      rewrite Hr. by intros [= ->].
  - intros r Hr ->.
    destruct (decide (status_code r = 200)) as [H200|H200].
    + rewrite (download_run _ _ _ _ _ _ _ _ _ _ _ _ Hr H200). simpl.
      destruct (read_csv _ _); eauto.
    + rewrite (download_non_200 _ _ _ _ _ _ _ _ _ _ _ _ Hr H200). eauto.
  - intros e He.
    unfold download_bulkSocialPosts_csv, requests_get, requests_send. run.
    by rewrite He.
  - unfold download_bulkSocialPosts_csv, requests_get, requests_send. run.
    destruct (remote _ _) as [r|e]; [|done].
    destruct (bool_decide (status_code r = 200)); [|done].
    destruct save_csv.
    + match goal with |- context [save_body os ?a ?b ?c ?d ?f ?g ?w'] =>
        pose proof (save_body_quiet a b c d f g w') as (Hs & Hsl & Hn);
        destruct (save_body os a b c d f g w') as [[[]|e] w1] end;
        simpl in *; [|by rewrite Hs, Hsl, Hn].
      destruct (read_csv _ _); simpl; by rewrite Hs, Hsl, Hn.
    + run. by destruct (read_csv _ _).
Qed.

(** X6.  With save_csv set, a successful (200) retrieval whose saving
    succeeds has written the text of the body, as it came, to the CSV file
    named after the landscape, the company ("all" when the company ID is
    empty), the period and the channel, in the landscape directory, which
    then exists; when that directory was not known before, it and the
    directories above it have been made.  The saving comes before the
    parse, so the file is written even when the body is unparsable and None
    is returned. *)
Theorem download_saves_body_before_parsing link landscapeId companyId
    mainPeriodStart mainPeriodEnd channel w r :
  remote (length (sent w)) (mkRequest GET link [] None) = Return r →
  status_code r = 200 →
  files w !! bulk_directory landscapeId = None →
  save_outcome os true link landscapeId companyId mainPeriodStart mainPeriodEnd
    channel r w = Return tt →
  let run := download_bulkSocialPosts_csv remote read_csv_rest os link landscapeId
               companyId mainPeriodStart mainPeriodEnd channel true w in
  files run.2 =
    <[bulk_filename landscapeId (if String.eqb companyId "" then "all" else companyId)
        mainPeriodStart mainPeriodEnd channel := text r]> (files w) ∧
  bulk_directory landscapeId ∈ dirs run.2 ∧
  (bulk_directory landscapeId ∉ dirs w →
   dirs run.2 = {[bulk_directory landscapeId]}
                ∪ list_to_set (parent_dirs (bulk_directory landscapeId)) ∪ dirs w) ∧
  run.1 = match read_csv read_csv_rest (text r) with
          | Return df => Return (Some df)
          | Raise _ => Return None
          end.
Proof.
  intros Hr H200 Hfile Hsaved. cbv zeta. revert Hsaved.
  unfold download_bulkSocialPosts_csv, requests_get, requests_send, save_outcome.
  run. rewrite Hr, (bool_decide_eq_true_2 _ H200).
  unfold fetched, save_body, os_path_exists, os_makedirs, write_file. run.
  rewrite Hfile.
  rewrite (bool_decide_eq_false_2 (is_Some None)) by (by intros [? [=]]).
  rewrite orb_false_r.
  destruct (bool_decide (bulk_directory landscapeId ∈ dirs w)) eqn:Hex; simpl.
  - apply bool_decide_eq_true in Hex.
    destruct (fs_open os _ _); simpl; [done|].
    destruct (fs_write os _ _ _) as [[? ?]|]; simpl; [done|]. intros _.
    destruct (read_csv read_csv_rest (text r)); simpl; done.
  - apply bool_decide_eq_false in Hex.
    destruct (fs_makedirs os _ _); simpl; [done|].
    destruct (fs_open os _ _); simpl; [done|].
    destruct (fs_write os _ _ _) as [[? ?]|]; simpl; [done|]. intros _.
    assert (Hin : bulk_directory landscapeId ∈
                  ({[bulk_directory landscapeId]}
                   ∪ list_to_set (parent_dirs (bulk_directory landscapeId))
                   ∪ dirs w : gset string)).
    { apply elem_of_union_l, elem_of_union_l. by apply elem_of_singleton. }
    destruct (read_csv read_csv_rest (text r)); simpl; done.
Qed.

(** X7.  The retrieval leaves the file system alone unless it is asked to
    save and the request succeeded: with save_csv unset, or on any answer
    other than 200, no directory is made and no file is written. *)
Theorem download_writes_only_when_asked link landscapeId companyId
    mainPeriodStart mainPeriodEnd channel save_csv w :
  (save_csv = false ∨
   ∃ r, remote (length (sent w)) (mkRequest GET link [] None) = Return r ∧
        status_code r ≠ 200) →
  let run := download_bulkSocialPosts_csv remote read_csv_rest os link landscapeId
               companyId mainPeriodStart mainPeriodEnd channel save_csv w in
  dirs run.2 = dirs w ∧ files run.2 = files w.
Proof.
  intros H. cbv zeta.
  unfold download_bulkSocialPosts_csv, requests_get, requests_send. run.
  destruct H as [->|(r & Hr & H200)].
  - destruct (remote _ _) as [r|e]; [|done].
    destruct (bool_decide (status_code r = 200)); [|done]. run.
    by destruct (read_csv read_csv_rest (text r)).
  - by rewrite Hr, (bool_decide_eq_false_2 _ H200).
Qed.

(** X8.  The follow request is sent only when both guards pass: a list of
    at most 10 IDs with an element that is not an int (a string, None; bool
    counts as int) raises "All company IDs must be integers." and sends
    nothing, and whenever the log of requests has grown the list had at most
    10 elements, all of them ints. *)
Theorem post_followCompanies_guards apiKey landscapeId companyIds verbose w :
  let run := post_followCompanies remote apiKey landscapeId companyIds verbose w in
  ((length companyIds ≤ 10)%nat → forallb isinstance_int companyIds = false →
   run = (Raise (Exception "All company IDs must be integers."), w)) ∧
  (sent run.2 ≠ sent w →
   (length companyIds ≤ 10)%nat ∧ forallb isinstance_int companyIds = true).
Proof.
  cbv zeta. unfold post_followCompanies. split.
  - intros Hlen Hint. rewrite bool_decide_eq_false_2 by lia. by rewrite Hint.
  - destruct (bool_decide (10 < length companyIds)%nat) eqn:Hlen; [done|].
    apply bool_decide_eq_false in Hlen.
    destruct (forallb isinstance_int companyIds); [|done].
    intros _. split; [lia|done].
Qed.

(** X9.  What the answer to the follow request leads to: a code other than
    200 raises Exception("Error: <code>"); a 200 returns normally when
    verbose is unset, whatever the body; with verbose set a 200 whose body
    is not JSON raises JSONDecodeError although the companies were
    followed. *)
Theorem post_followCompanies_answer apiKey landscapeId companyIds verbose w r :
  (length companyIds ≤ 10)%nat →
  forallb isinstance_int companyIds = true →
  remote (length (sent w)) (follow_request apiKey landscapeId companyIds) = Return r →
  (post_followCompanies remote apiKey landscapeId companyIds verbose w).1 =
  if bool_decide (status_code r = 200) then
    if verbose && bool_decide (json_body r = None) then Raise JSONDecodeError
    else Return tt
  else Raise (Exception ("Error: " +:+ pretty (status_code r))).
Proof.
  intros Hlen Hint Hr. unfold post_followCompanies.
  rewrite bool_decide_eq_false_2 by lia. rewrite Hint.
  unfold requests_post, requests_send. run.
  fold (follow_request apiKey landscapeId companyIds). rewrite Hr.
  destruct (bool_decide (status_code r = 200)); [|done].
  destruct verbose; [|done]. unfold Response_json. simpl.
  destruct (json_body r); [by rewrite bool_decide_eq_false_2|].
  by rewrite bool_decide_eq_true_2.
Qed.

(** The request that [get_bulkSocialPosts] sends carries the company ID as
    it was given. *)
Lemma get_bulkSocialPosts_run depth landscapeId apiKey companyId mainPeriodStart
    mainPeriodEnd channel format save_csv w :
  get_bulkSocialPosts remote read_csv_rest str_container os depth landscapeId apiKey
    companyId mainPeriodStart mainPeriodEnd channel format save_csv w =
  let req := bulk_request landscapeId apiKey companyId mainPeriodStart
               mainPeriodEnd channel format in
  let w1 := mkWorld (now w) (sent w ++ [(now w, req)]) (slept w) (dirs w) (files w) in
  match remote (length (sent w)) req with
  | Raise e => (Raise e, w1)
  | Return response =>
      if bool_decide (status_code response = 202) then
        match Response_json response with
        | Raise e => (Raise e, w1)
        | Return data =>
            match json_getitem data "token" with
            | Raise e => (Raise e, w1)
            | Return token =>
                match check_bulkDownload_status remote depth
                        (py_str str_container token) apiKey (now w) w1 with
                | (Raise e, w2) => (Raise e, w2)
                | (Return link, w2) =>
                    download_bulkSocialPosts_csv remote read_csv_rest os
                      (py_str str_container link) landscapeId companyId
                      mainPeriodStart mainPeriodEnd channel save_csv w2
                end
            end
        end
      else (Raise (Exception ("Error: " +:+ pretty (status_code response))), w1)
  end.
Proof.
  unfold get_bulkSocialPosts, requests_get, requests_send, bulk_request. run.
  assert ((if negb (String.eqb companyId "") then companyId else "") = companyId)
    as ->.
  { destruct (String.eqb_spec companyId "") as [->|]; done. }
  destruct (remote _ _) as [r|e]; [|done].
  destruct (bool_decide (status_code r = 202)); [|done].
  destruct (Response_json r) as [data|e]; [|done]. simpl.
  by destruct (json_getitem data "token") as [token|e].
Qed.

(** X10.  A submission that is not answered with 202 (a plain 200 included)
    raises Exception("Error: <code>") at once: the submission is the only
    request sent, nothing is polled, slept or written. *)
Theorem get_bulkSocialPosts_rejected depth landscapeId apiKey companyId
    mainPeriodStart mainPeriodEnd channel format save_csv w r :
  remote (length (sent w))
    (bulk_request landscapeId apiKey companyId mainPeriodStart mainPeriodEnd
       channel format) = Return r →
  status_code r ≠ 202 →
  get_bulkSocialPosts remote read_csv_rest str_container os depth landscapeId apiKey
    companyId mainPeriodStart mainPeriodEnd channel format save_csv w =
  (Raise (Exception ("Error: " +:+ pretty (status_code r))),
   mkWorld (now w)
     (sent w ++ [(now w, bulk_request landscapeId apiKey companyId mainPeriodStart
                           mainPeriodEnd channel format)])
     (slept w) (dirs w) (files w)).
Proof.
  intros Hr H202. rewrite get_bulkSocialPosts_run. cbv zeta.
  by rewrite Hr, (bool_decide_eq_false_2 _ H202).
Qed.


End retrieval_more.

(** * Further properties of the mailbox helpers *)

Section url_more.

Context (is_space : ascii → bool).

(** A repetition that ends the pattern matches a non-empty run of
    characters of its class. *)
Lemma match_plus_run class (rest : string → option (string * string)) s m r :
  (∀ s, rest s = Some ("", s)) →
  match_plus class rest s = Some (m, r) →
  m ≠ "" ∧ string_forall class m = true.
Proof.
  intros Hrest. revert m r. induction s as [|c s IH]; intros m r; [done|].
  simpl. destruct (class c) eqn:Hc; [|done].
  destruct (match_plus class rest s) as [[m' r']|] eqn:E.
  - intros [= <- <-]. split; [done|].
    destruct (IH m' r' eq_refl) as [_ Hall].
    unfold string_forall in *. simpl. by rewrite Hc.
  - rewrite Hrest. intros [= <- <-]. split; [done|].
    unfold string_forall. simpl. by rewrite Hc.
Qed.

Lemma match_plus_last class s m r :
  match_here [Plus class] s = Some (m, r) →
  m ≠ "" ∧ string_forall class m = true.
Proof. simpl. by apply match_plus_run. Qed.

Lemma url_pattern_shape base_url s u r :
  match_here (url_pattern is_space base_url) s = Some (u, r) →
  ∃ t, t ≠ "" ∧ string_forall (url_char is_space) t = true ∧
       match base_url with
       | Some b => u = b +:+ t
       | None => u = "http://" +:+ t ∨ u = "https://" +:+ t
       end.
Proof.
  destruct base_url as [b|]; unfold url_pattern; intros H.
  - apply match_here_escape in H as (s' & m' & _ & -> & H).
    apply match_plus_last in H as [? ?]. by exists m'.
  - apply match_here_escape in H as (s' & m' & _ & -> & H).
    change ([Opt "s"] ++ re_escape "://" ++ [Plus (url_char is_space)])
      with (Opt "s" :: (re_escape "://" ++ [Plus (url_char is_space)])) in H.
    cbn [match_here] in H.
    destruct s' as [|c' s''].
    + by apply match_here_escape in H as (? & ? & ? & _).
    + destruct (Ascii.eqb_spec "s" c') as [<-|Hne].
      * destruct (match_here _ s'') as [[m0 r0]|] eqn:E.
        -- injection H as <- <-.
           apply match_here_escape in E as (? & m1 & _ & -> & E).
           apply match_plus_last in E as [? ?]. exists m1. by auto.
        -- by apply match_here_escape in H as (? & ? & ? & _).
      * apply match_here_escape in H as (? & m1 & _ & -> & H).
        apply match_plus_last in H as [? ?]. exists m1. by auto.
Qed.

(** X12.  A URL that the extraction returns is the base URL followed by at
    least one more character, none of which is whitespace, an angle bracket,
    a quote or a parenthesis; so a body in which the base URL stands alone
    is not matched by it, and the base URL itself is never returned.
    Without a base URL the same holds with http:// or https:// in its
    place. *)
Theorem extracted_url_extends_the_base body base_url u :
  extract_url_from_body is_space body base_url = Return u →
  ∃ t, t ≠ "" ∧ string_forall (url_char is_space) t = true ∧
       match base_url with
       | Some b => u = b +:+ t
       | None => u = "http://" +:+ t ∨ u = "https://" +:+ t
       end.
Proof.
  unfold extract_url_from_body.
  destruct (findall _ body) as [|u1 [|u2 urls]] eqn:E; try done.
  intros [= <-].
  assert (Hin : u1 ∈ findall (url_pattern is_space base_url) body)
    by (rewrite E; apply list_elem_of_here).
  destruct (findall_from_match _ _ _ _ Hin) as (s1 & s2 & r & _ & Hm).
  by apply url_pattern_shape in Hm.
Qed.

End url_more.

Section parse_csv_more.

Context (read_csv_rest : string → outcome DataFrame).

Lemma split_on_no_sep sep line :
  string_forall (λ c, negb (Ascii.eqb c sep)) line = true →
  split_on sep line = [line].
Proof.
  unfold string_forall. induction line as [|c line IH]; [done|].
  simpl. intros H. apply andb_true_iff in H as [Hc H].
  apply negb_true_iff in Hc. rewrite Hc, (IH H). done.
Qed.

Lemma split_on_line sep line s :
  string_forall (λ c, negb (Ascii.eqb c sep)) line = true →
  split_on sep (line +:+ String sep s) = line :: split_on sep s.
Proof.
  unfold string_forall. induction line as [|c line IH]; intros H.
  - change ("" +:+ String sep s) with (String sep s). simpl.
    by rewrite Ascii.eqb_refl.
  - simpl in H. apply andb_true_iff in H as [Hc H]. apply negb_true_iff in Hc.
    rewrite append_cons. simpl. by rewrite Hc, (IH H).
Qed.

(** Joining lines with line feeds and splitting again gives the lines
    back. *)
Lemma split_on_join lines :
  lines ≠ [] → Forall (λ l, no_newline l = true) lines →
  split_on newline (join newline lines) = lines.
Proof.
  intros Hne H. induction H as [|l ls Hl Hls IH]; [done|].
  destruct ls as [|l' ls].
  - simpl. by apply split_on_no_sep.
  - change (join newline (l :: l' :: ls))
      with (l +:+ String newline (join newline (l' :: ls))).
    rewrite (split_on_line _ _ _ Hl), IH; done.
Qed.

Lemma find_header_row_app key_columns i before header after :
  Forall (λ line, forallb (λ k, is_substring k line) key_columns = false) before →
  forallb (λ k, is_substring k header) key_columns = true →
  find_header_row key_columns i (before ++ header :: after) =
  Some (i + length before)%nat.
Proof.
  intros Hb Hh. revert i. induction Hb as [|l ls Hl _ IH]; intros i; simpl.
  - rewrite Hh. f_equal. lia.
  - rewrite Hl, IH. f_equal. lia.
Qed.

(** X13.  Lines that come before the header row are dropped: when the
    content is made of some lines that lack a key column, followed by a line
    that contains every key column and by further lines, the function parses
    the content from that line on, exactly as if the earlier lines had not
    been there. *)
Theorem parse_csv_skips_lines_before_header key_columns before header after :
  Forall (λ l, no_newline l = true) (before ++ header :: after) →
  Forall (λ line, forallb (λ k, is_substring k line)
                    (default default_key_columns key_columns) = false) before →
  forallb (λ k, is_substring k header) (default default_key_columns key_columns) = true →
  parse_csv read_csv_rest (join newline (before ++ header :: after)) key_columns =
  read_csv read_csv_rest (join newline (header :: after)).
Proof.
  intros Hlines Hbefore Hheader. unfold parse_csv.
  rewrite split_on_join; [|by destruct before|done].
  rewrite (find_header_row_app _ _ _ _ _ Hbefore Hheader).
  unfold slice_from. simpl. by rewrite drop_app_length.
Qed.

End parse_csv_more.

Section search_more.

Context (imap_search : string → outcome (string * string)).
Context (today_str : string).
Context (py_int : string → option Z).
Context (bytes_repr : string → string).

(** The replacement keeps the first character of the text. *)
Lemma separate_criteria_head c s :
  ∃ t, separate_criteria (String c s) = String c t.
Proof.
  destruct s as [|c' s]; simpl; [by eexists|].
  destruct (Ascii.eqb_spec c ")") as [->|]; simpl; [|by eexists].
  destruct (Ascii.eqb c' "("); by eexists.
Qed.

Lemma prefix_cons c p d s :
  String.prefix (String c p) (String d s) =
  if Ascii.eqb c d then String.prefix p s else false.
Proof.
  cbn [String.prefix].
  destruct (ascii_dec c d) as [->|Hne]; [by rewrite Ascii.eqb_refl|].
  by destruct (Ascii.eqb_spec c d).
Qed.

Lemma prefix_nil s : String.prefix "" s = true.
Proof. by destruct s. Qed.

Lemma adjacent_cons c s :
  is_substring ")(" (String c s) =
  (Ascii.eqb ")" c && match s with
                      | String d _ => Ascii.eqb "(" d
                      | "" => false
                      end) || is_substring ")(" s.
Proof.
  cbn [is_substring]. rewrite prefix_cons. f_equal.
  destruct (Ascii.eqb ")" c); [|done].
  destruct s as [|d s]; [done|]. rewrite prefix_cons.
  destruct (Ascii.eqb "(" d); [|done]. apply prefix_nil.
Qed.

Lemma separate_criteria_cons c c' s :
  separate_criteria (String c (String c' s)) =
  if Ascii.eqb c ")" && Ascii.eqb c' "(" then
    String ")" (String " " (String "(" (separate_criteria s)))
  else String c (separate_criteria (String c' s)).
Proof. reflexivity. Qed.

Lemma separate_criteria_no_adjacent_aux n s :
  (String.length s ≤ n)%nat → is_substring ")(" (separate_criteria s) = false.
Proof.
  revert s. induction n as [|n IH]; intros s Hn.
  { destruct s; [done|simpl in Hn; lia]. }
  destruct s as [|c [|c' s]]; [done| |].
  - cbn [separate_criteria]. rewrite adjacent_cons. by rewrite andb_false_r.
  - rewrite separate_criteria_cons.
    destruct (Ascii.eqb_spec c ")") as [->|Hc];
      [destruct (Ascii.eqb_spec c' "(") as [->|Hc']|]; cbn [andb].
    + rewrite !adjacent_cons.
      change (Ascii.eqb ")" ")") with true. change (Ascii.eqb "(" " ") with false.
      change (Ascii.eqb ")" " ") with false. change (Ascii.eqb ")" "(") with false.
      cbn [andb orb]. apply IH. simpl in Hn. lia.
    + destruct (separate_criteria_head c' s) as [t Ht].
      rewrite adjacent_cons, IH by (simpl in *; lia). rewrite Ht.
      destruct (Ascii.eqb_spec "(" c') as [<-|]; [done|].
      by rewrite andb_false_r.
    + rewrite adjacent_cons, IH by (simpl in *; lia).
      destruct (Ascii.eqb_spec ")" c) as [<-|]; [done|]. done.
Qed.

Lemma begins_open_app acc piece :
  (acc = "" ∨ String.prefix "(" acc = true) →
  String.prefix "(" piece = true →
  String.prefix "(" (acc +:+ piece) = true.
Proof.
  intros [->|H] Hp; [done|].
  destruct acc as [|c acc]; [done|]. rewrite append_cons.
  rewrite prefix_cons in *. destruct (Ascii.eqb "(" c); [|done]. apply prefix_nil.
Qed.

Lemma raw_criteria_begins from_email substrings_in_subject
    exclude_subject_substring send_date sent_today :
  let raw := raw_criteria today_str from_email substrings_in_subject
               exclude_subject_substring send_date sent_today in
  raw = "" ∨ String.prefix "(" raw = true.
Proof.
  cbv zeta. unfold raw_criteria.
  set (s0 := "").
  assert (H0 : s0 = "" ∨ String.prefix "(" s0 = true) by (by left).
  set (s1 := match from_email with Some f => _ | None => s0 end).
  assert (H1 : s1 = "" ∨ String.prefix "(" s1 = true).
  { unfold s1. destruct from_email; [right|done]. by apply begins_open_app. }
  set (s2 := match substrings_in_subject with Some l => _ | None => s1 end).
  assert (H2 : s2 = "" ∨ String.prefix "(" s2 = true).
  { unfold s2. destruct substrings_in_subject as [l|]; [|done].
    clearbody s1. clear -H1. revert s1 H1.
    induction l as [|x l IH]; intros s1 H1; [done|].
    simpl. apply IH. right. by apply begins_open_app. }
  set (s3 := match exclude_subject_substring with Some x => _ | None => s2 end).
  assert (H3 : s3 = "" ∨ String.prefix "(" s3 = true).
  { unfold s3. destruct exclude_subject_substring; [right|done].
    by apply begins_open_app. }
  set (s4 := match send_date with Some d => _ | None => s3 end).
  assert (H4 : s4 = "" ∨ String.prefix "(" s4 = true).
  { unfold s4. destruct send_date; [right|done]. by apply begins_open_app. }
  destruct sent_today; [right|done]. by apply begins_open_app.
Qed.

(** X14.  The two ways of giving a date exclude each other: with a
    send_date and sent_today set the function raises ValueError before
    anything else happens; the search_string attribute keeps its value and
    no search is sent to the server. *)
Theorem search_emails_rejects_two_dates self from_email substrings_in_subject
    exclude_subject_substring send_date :
  search_emails imap_search today_str py_int bytes_repr self from_email
    substrings_in_subject exclude_subject_substring (Some send_date) true =
  (Raise (ValueError
     "Cannot use both 'send_date' and 'sent_today' parameters simultaneously."),
   self).
Proof. unfold search_emails. by rewrite bool_decide_eq_true_2. Qed.

(** X15.  The search string that is sent to the server never has a closing
    parenthesis directly followed by an opening one, and it is either empty
    (no criterion given) or begins with an opening parenthesis, hence never
    with a space. *)
Theorem search_criteria_are_separated from_email substrings_in_subject
    exclude_subject_substring send_date sent_today :
  let criteria :=
    separate_criteria
      (raw_criteria today_str from_email substrings_in_subject
         exclude_subject_substring send_date sent_today) in
  is_substring ")(" criteria = false ∧
  (criteria = "" ∨ String.prefix "(" criteria = true).
Proof.
  cbv zeta. split.
  - by eapply separate_criteria_no_adjacent_aux.
  - destruct (raw_criteria_begins from_email substrings_in_subject
                exclude_subject_substring send_date sent_today) as [->|H];
      [by left|right].
    destruct (raw_criteria _ _ _ _ _ _) as [|c raw]; [done|].
    destruct (separate_criteria_head c raw) as [t ->].
    rewrite prefix_cons in *. destruct (Ascii.eqb "(" c); [|done]. apply prefix_nil.
Qed.

Lemma insert_desc_perm x l : insert_desc x l ≡ₚ x :: l.
Proof.
  induction l as [|y l IH]; [done|]. simpl.
  destruct (y.1 <=? x.1)%Z; [done|]. by rewrite IH, Permutation_swap.
Qed.

Lemma sort_desc_perm l : sort_desc l ≡ₚ l.
Proof.
  induction l as [|x l IH]; [done|].
  unfold sort_desc in *. simpl. by rewrite insert_desc_perm, IH.
Qed.

Lemma insert_desc_sorted x l :
  StronglySorted (λ a b : Z * string, (b.1 ≤ a.1)%Z) l →
  StronglySorted (λ a b : Z * string, (b.1 ≤ a.1)%Z) (insert_desc x l).
Proof.
  induction l as [|y l IH]; intros Hl; simpl.
  - repeat constructor.
  - apply StronglySorted_cons in Hl as [Hy Hl].
    destruct (Z.leb_spec y.1 x.1) as [Hle|Hlt].
    + apply StronglySorted_cons. split.
      * constructor; [done|].
        eapply Forall_impl; [exact Hy|]. simpl. intros. lia.
      * by apply StronglySorted_cons.
    + apply StronglySorted_cons. split; [|by apply IH].
      rewrite insert_desc_perm. constructor; [lia|done].
Qed.

Lemma sort_desc_sorted l :
  StronglySorted (λ a b : Z * string, (b.1 ≤ a.1)%Z) (sort_desc l).
Proof.
  induction l as [|x l IH]; [constructor|].
  unfold sort_desc in *. simpl. by apply insert_desc_sorted.
Qed.

Lemma with_int_keys_ok tokens :
  Forall (λ t, is_Some (py_int t)) tokens →
  ∃ keyed, with_int_keys py_int bytes_repr tokens = Return keyed ∧
           keyed.*2 = tokens ∧
           Forall (λ p : Z * string, py_int p.2 = Some p.1) keyed.
Proof.
  intros H. induction H as [|t ts [k Hk] _ IH]; simpl.
  - by exists [].
  - destruct IH as (keyed & Hw & Hts & Hkeys).
    rewrite Hk, Hw. exists ((k, t) :: keyed). split; [done|]. split.
    + rewrite fmap_cons. simpl. by f_equal.
    + by constructor.
Qed.

(** X16.  Most recent first: when the server answers OK and every
    identifier is a number, the function returns the identifiers of the
    answer, each as often as it occurs, in descending numeric order; when
    the status is anything but OK the result is the empty list. *)
Theorem search_emails_most_recent_first self from_email substrings_in_subject
    exclude_subject_substring send_date sent_today status email_ids_0 :
  bool_decide (is_Some send_date) && sent_today = false →
  imap_search
    (separate_criteria
       (raw_criteria today_str from_email substrings_in_subject
          exclude_subject_substring send_date sent_today))
  = Return (status, email_ids_0) →
  let run := search_emails imap_search today_str py_int bytes_repr self from_email
               substrings_in_subject exclude_subject_substring send_date
               sent_today in
  (status ≠ "OK" → run.1 = Return []) ∧
  (status = "OK" →
   Forall (λ t, is_Some (py_int t)) (split_ws email_ids_0) →
   ∃ ids, run.1 = Return ids ∧
          ids ≡ₚ split_ws email_ids_0 ∧
          StronglySorted (λ a b, ∀ x y, py_int a = Some x → py_int b = Some y →
                                        (y ≤ x)%Z) ids).
Proof.
  intros Hguard Himap. cbv zeta. unfold search_emails.
  rewrite Hguard, Himap. split.
  - intros Hst. destruct (String.eqb_spec status "OK"); done.
  - intros -> Hnum. simpl.
    destruct (with_int_keys_ok _ Hnum) as (keyed & -> & Htok & Hkeys). simpl.
    eexists. split; [done|]. split.
    + by rewrite sort_desc_perm, Htok.
    + assert (Hk : Forall (λ p : Z * string, py_int p.2 = Some p.1) (sort_desc keyed))
        by (by rewrite sort_desc_perm).
      pose proof (sort_desc_sorted keyed) as Hs.
      induction Hs as [|p l Hs IH Hp]; [constructor|].
      apply Forall_cons in Hk as [Hkp Hk].
      simpl. constructor; [by apply IH|].
      apply Forall_fmap.
      rewrite Forall_forall in Hp, Hk. apply Forall_forall.
      intros q Hq x y Hx Hy. simpl in *.
      specialize (Hp q Hq). specialize (Hk q Hq). simpl in *.
      rewrite Hkp in Hx. rewrite Hk in Hy. injection Hx as <-. injection Hy as <-.
      done.
Qed.

(** X17.  One identifier that is not a number spoils the whole answer: the
    keys are computed before anything is sorted, and the first identifier
    that int() refuses makes the function raise ValueError naming it. *)
Theorem search_emails_rejects_non_numeric_id self from_email substrings_in_subject
    exclude_subject_substring send_date sent_today email_ids_0 good bad rest :
  bool_decide (is_Some send_date) && sent_today = false →
  imap_search
    (separate_criteria
       (raw_criteria today_str from_email substrings_in_subject
          exclude_subject_substring send_date sent_today))
  = Return ("OK", email_ids_0) →
  split_ws email_ids_0 = good ++ bad :: rest →
  Forall (λ t, is_Some (py_int t)) good →
  py_int bad = None →
  (search_emails imap_search today_str py_int bytes_repr self from_email
     substrings_in_subject exclude_subject_substring send_date sent_today).1 =
  Raise (ValueError ("invalid literal for int() with base 10: " +:+ bytes_repr bad)).
Proof.
  intros Hguard Himap Hsplit Hgood Hbad.
  assert (Hkeys : with_int_keys py_int bytes_repr (good ++ bad :: rest) =
          Raise (ValueError ("invalid literal for int() with base 10: "
                             +:+ bytes_repr bad))).
  { clear Hsplit. induction Hgood as [|t ts [k Hk] _ IH]; simpl.
    - by rewrite Hbad.
    - by rewrite Hk, IH. }
  unfold search_emails.
  rewrite Hguard, Himap. simpl. by rewrite Hsplit, Hkeys.
Qed.

End search_more.

Section warehouse_more.

Lemma astype_str_cells df :
  Forall (Forall (λ c, is_str_cell c = true)) (rows (astype_str df)).
Proof.
  unfold astype_str. simpl. apply Forall_fmap, Forall_true. intros row. simpl.
  apply Forall_fmap, Forall_true. by intros [z|s'].
Qed.

(** X18.  What goes to the warehouse: for the channels facebook, twitter,
    instagram, youtube, tiktok and all, exactly one write is added to the
    session, to the staging table of the channel, of a table with the same
    column names and the same number of rows whose cells are all strings;
    for any other channel name (the names are in lower case) the function
    raises KeyError and writes nothing. *)
Theorem send_to_snowflake_writes_strings df channel session :
  (channel ∈ ["facebook"; "twitter"; "instagram"; "youtube"; "tiktok"; "all"] →
   ∃ wr, send_to_snowflake df channel session = (Return tt, session ++ [wr]) ∧
         table_names !! channel = Some (sw_table_name wr) ∧
         columns (sw_df wr) = columns df ∧
         length (rows (sw_df wr)) = length (rows df) ∧
         Forall (Forall (λ c, is_str_cell c = true)) (rows (sw_df wr))) ∧
  (channel ∉ ["facebook"; "twitter"; "instagram"; "youtube"; "tiktok"; "all"] →
   send_to_snowflake df channel session = (Raise (KeyError channel), session)).
Proof.
  unfold send_to_snowflake. split.
  - intros Hin.
    assert (is_Some (table_names !! channel)) as [t Ht].
    { repeat (apply elem_of_cons in Hin as [->|Hin]; [by eexists|]).
      by apply elem_of_nil in Hin. }
    rewrite Ht. eexists. split; [done|]. simpl. split; [done|]. split; [done|].
    split; [by rewrite length_fmap|]. apply astype_str_cells.
  - intros Hnot.
    assert (table_names !! channel = None) as ->; [|done].
    unfold table_names. simpl.
    repeat (rewrite lookup_insert_ne;
            [|intros <-; apply Hnot; repeat constructor]).
    apply lookup_empty.
Qed.

End warehouse_more.

(** * Sample runs of the further properties *)

Lemma ready_at_once_returns_without_sleeping_witness :
  (check_bulkDownload_status (remote_ready_after 0) 1 "tok" "key" 0 w0).1 =
  Return (JStr sample_link).
Proof.
  apply (ready_at_once_returns_without_sleeping (remote_ready_after 0) 0 "tok" "key"
           0 w0 (ready_reply sample_link) (JStr sample_link)); reflexivity.
Defined.

Lemma poll_http_error_is_fatal_witness :
  check_bulkDownload_status (remote_const 503 "busy") 1000 "tok" "key" 0 w0 =
  (Raise (Exception "Error: 503"), queried "tok" "key" w0).
Proof.
  destruct (poll_http_error_is_fatal (remote_const 503 "busy") 999 "tok" "key" 0 w0)
    as [H _].
  apply (H (mkResponse 503 "busy" None)).
  - reflexivity.
  - simpl. lia.
Defined.

Lemma malformed_poll_answer_raises_witness :
  check_bulkDownload_status (remote_const 200 "<html>") 1000 "tok" "key" 0 w0 =
  (Raise JSONDecodeError, queried "tok" "key" w0).
Proof.
  apply (malformed_poll_answer_raises (remote_const 200 "<html>") 999 "tok" "key" 0
           w0 (mkResponse 200 "<html>" None)); reflexivity.
Defined.

Lemma download_raises_only_transport_and_file_errors_witness :
  ∃ v, (sample_download 500 "oops").1 = Return v.
Proof.
  destruct (download_raises_only_transport_and_file_errors (remote_const 500 "oops")
              no_rest fs_ok sample_link "42" "" "2023-01-01" "2023-02-01" "all"
              false w0) as (_ & H & _).
  apply (H (mkResponse 500 "oops" None)); reflexivity.
Defined.

Lemma download_saves_body_before_parsing_witness :
  files (download_bulkSocialPosts_csv (remote_const 200 "") no_rest fs_ok sample_link
           "42" "" "2023-01-01" "2023-02-01" "all" true w0).2 =
  <[bulk_filename "42" "all" "2023-01-01" "2023-02-01" "all" := ""]> (files w0).
Proof.
  apply (download_saves_body_before_parsing (remote_const 200 "") no_rest fs_ok
           sample_link "42" "" "2023-01-01" "2023-02-01" "all" w0
           (mkResponse 200 "" None)); reflexivity.
Defined.

Lemma download_writes_only_when_asked_witness :
  dirs (sample_download 200 csv_two_rows).2 = dirs w0 ∧
  files (sample_download 200 csv_two_rows).2 = files w0.
Proof.
  apply (download_writes_only_when_asked (remote_const 200 csv_two_rows) no_rest
           fs_ok sample_link "42" "" "2023-01-01" "2023-02-01" "all" false w0).
  by left.
Defined.

Lemma post_followCompanies_guards_witness :
  post_followCompanies (remote_const 200 "") "key" "42" [VInt 1; VStr "2"] false w0 =
  (Raise (Exception "All company IDs must be integers."), w0).
Proof.
  apply (post_followCompanies_guards (remote_const 200 "") "key" "42"
           [VInt 1; VStr "2"] false w0).
  - simpl. lia.
  - reflexivity.
Defined.

Lemma post_followCompanies_answer_witness :
  (post_followCompanies (remote_const 200 "Followed") "key" "42" [VInt 1; VInt 2]
     true w0).1 = Raise JSONDecodeError.
Proof.
  apply (post_followCompanies_answer (remote_const 200 "Followed") "key" "42"
           [VInt 1; VInt 2] true w0 (mkResponse 200 "Followed" None)).
  - simpl. lia.
  - reflexivity.
  - reflexivity.
Defined.

Lemma get_bulkSocialPosts_rejected_witness :
  (get_bulkSocialPosts (remote_const 200 "{}") no_rest no_container fs_ok 1000 "42" "key" ""
     "2023-01-01" "2023-02-01" "all" "csv" false w0).1 =
  Raise (Exception "Error: 200").
Proof.
  rewrite (get_bulkSocialPosts_rejected (remote_const 200 "{}") no_rest no_container
             fs_ok 1000 "42" "key" "" "2023-01-01" "2023-02-01" "all" "csv" false w0
             (mkResponse 200 "{}" None)).
  - reflexivity.
  - reflexivity.
  - simpl. lia.
Defined.


Lemma extracted_url_extends_the_base_witness :
  ∃ t, t ≠ "" ∧ string_forall (url_char ascii_space) t = true ∧
       "https://example.com/r/1" = "https://example.com" +:+ t.
Proof.
  apply (extracted_url_extends_the_base ascii_space
           "Your report: https://example.com/r/1 (expires soon)"
           (Some "https://example.com") "https://example.com/r/1").
  reflexivity.
Defined.

Lemma parse_csv_skips_lines_before_header_witness :
  parse_csv no_rest
    (join newline (["Report of May"] ++ "Day,Advertiser" :: ["1,2"]))
    (Some ["Day"; "Advertiser"]) =
  read_csv no_rest (join newline ("Day,Advertiser" :: ["1,2"])).
Proof.
  apply (parse_csv_skips_lines_before_header no_rest (Some ["Day"; "Advertiser"])
           ["Report of May"] "Day,Advertiser" ["1,2"]).
  - repeat constructor.
  - repeat constructor.
  - reflexivity.
Defined.

Lemma search_emails_most_recent_first_witness :
  ∃ ids,
    (search_emails (imap_const "OK" "3 12 7") "01-Jan-2024" int_literal
       sample_bytes_repr sample_self (Some "reports@example.com") None None None
       false).1 = Return ids ∧
    ids ≡ₚ split_ws "3 12 7" ∧
    StronglySorted (λ a b, ∀ x y, int_literal a = Some x → int_literal b = Some y →
                                  (y ≤ x)%Z) ids.
Proof.
  apply (search_emails_most_recent_first (imap_const "OK" "3 12 7") "01-Jan-2024"
           int_literal sample_bytes_repr sample_self (Some "reports@example.com")
           None None None false "OK" "3 12 7").
  - reflexivity.
  - reflexivity.
  - reflexivity.
  - repeat constructor; by eexists.
Defined.

Lemma search_emails_rejects_non_numeric_id_witness :
  (search_emails (imap_const "OK" "3 x 7") "01-Jan-2024" int_literal
     sample_bytes_repr sample_self None None None None true).1 =
  Raise (ValueError "invalid literal for int() with base 10: b'x'").
Proof.
  apply (search_emails_rejects_non_numeric_id (imap_const "OK" "3 x 7")
           "01-Jan-2024" int_literal sample_bytes_repr sample_self None None None
           None true "3 x 7" ["3"] "x" ["7"]).
  - reflexivity.
  - reflexivity.
  - reflexivity.
  - repeat constructor; by eexists.
  - reflexivity.
Defined.

Lemma send_to_snowflake_writes_strings_witness :
  send_to_snowflake (mkDataFrame ["a"] [[CInt 1]]) "Facebook" [] =
  (Raise (KeyError "Facebook"), []).
Proof.
  apply (send_to_snowflake_writes_strings (mkDataFrame ["a"] [[CInt 1]]) "Facebook" []).
  intros Hin.
  repeat (apply elem_of_cons in Hin as [Hin|Hin]; [discriminate Hin|]).
  by apply elem_of_nil in Hin.
Defined.
